(** * Task actions of the Starknet Hardhat plugin

    A shallow embedding of [src/task-actions.ts]: the compile, build, test
    and run actions, written as state-and-exception computations over an
    explicit world (file system, recompilation cache, runtime network,
    integrated devnet, and the trace of console and external calls). *)

From stdpp Require Import gmap strings list fin_maps pretty.
From Stdlib Require Import ZArith Lia Ascii String.

Set Warnings "-register-all".

Local Open Scope Z_scope.
Local Open Scope string_scope.
Local Open Scope list_scope.

(** ** Characters that JavaScript writes with an escape *)

Definition tab : string := String "009"%char "".
Definition nl : string := String "010"%char "".
Definition dquote : string := String "034"%char "".

(** ** JavaScript values used by the actions *)

(** Errors thrown while an action runs. [ScarbConfigValidationError] is the
    subclass declared in the source; the others are the plugin's error, the
    errors of Node and of the JavaScript built-ins, the resolver's error and
    whatever user code throws. *)
Inductive JsError : Type :=
| StarknetPluginError (msg : string)
| ScarbConfigValidationError (path message : string)
| UnknownNetworkError (origin networkName : string)
| ENOENT (path : string)
| SyntaxError (input : string)
| TypeError (msg : string)
| ForeignError (msg : string).

(** The message the constructor of each error class builds. *)
Definition error_message (e : JsError) : string :=
  match e with
  | StarknetPluginError msg => msg
  | ScarbConfigValidationError path message =>
      "Invalid config file " +:+ path +:+ ": " +:+ message +:+ nl +:+
      "To skip this validation, use the --skip-validate flag in the CLI"
  | UnknownNetworkError origin name =>
      "Invalid network provided in " +:+ origin +:+ ": " +:+ name
  | ENOENT path => "ENOENT: no such file or directory, open '" +:+ path +:+ "'"
  | SyntaxError input => "Unexpected token in JSON"
  | TypeError msg => msg
  | ForeignError msg => msg
  end.

(** Truthiness of an optional string: [undefined] and the empty string are
    falsy. *)
Definition truthy (o : option string) : bool :=
  match o with
  | Some s => negb (String.eqb s "")
  | None => false
  end.

(** [a || b] on optional strings. *)
Definition or_else (a b : option string) : option string :=
  if truthy a then a else b.

(** A parsed JSON document. The fields of an object are listed in the
    enumeration order of its own properties; numbers are the integers. *)
Inductive json : Type :=
| JNull
| JBool (b : bool)
| JNum (z : Z)
| JStr (s : string)
| JArr (items : list json)
| JObj (fields : list (string * json)).

(** [ProcessResult] of hardhat-docker. *)
Record ProcessResult : Type := {
  statusCode : Z;
  stdout : string;
  stderr : string
}.

(** ** JSON.stringify *)

Definition hex_digit (n : N) : ascii :=
  match n with
  | 0 => "0" | 1 => "1" | 2 => "2" | 3 => "3" | 4 => "4" | 5 => "5"
  | 6 => "6" | 7 => "7" | 8 => "8" | 9 => "9" | 10 => "a" | 11 => "b"
  | 12 => "c" | 13 => "d" | 14 => "e" | _ => "f"
  end%N%char.

(** QuoteJSONString on one code unit. *)
Definition quote_char (c : ascii) : string :=
  let n := N_of_ascii c in
  if (n =? 8)%N then "\b"
  else if (n =? 9)%N then "\t"
  else if (n =? 10)%N then "\n"
  else if (n =? 12)%N then "\f"
  else if (n =? 13)%N then "\r"
  else if (n =? 34)%N then "\" +:+ dquote
  else if (n =? 92)%N then "\\"
  else if (n <? 32)%N then
    "\u00" +:+ String (hex_digit (n / 16)) (String (hex_digit (n mod 16)) "")
  else String c "".

Fixpoint quote_body (s : string) : string :=
  match s with
  | EmptyString => ""
  | String c rest => quote_char c +:+ quote_body rest
  end.

Definition quote (s : string) : string := dquote +:+ quote_body s +:+ dquote.

(** [items.join(sep)]. *)
Fixpoint join (sep : string) (items : list string) : string :=
  match items with
  | [] => ""
  | [x] => x
  | x :: rest => x +:+ sep +:+ join sep rest
  end.

(** [JSON.stringify(v)] with no indentation argument. *)
Fixpoint JSON_stringify (v : json) : string :=
  match v with
  | JNull => "null"
  | JBool true => "true"
  | JBool false => "false"
  | JNum z => pretty z
  | JStr s => quote s
  | JArr items => "[" +:+ join "," (map JSON_stringify items) +:+ "]"
  | JObj fields =>
      "{" +:+
      join "," (map (fun kv => quote (fst kv) +:+ ":" +:+ JSON_stringify (snd kv)) fields)
      +:+ "}"
  end.

(** [JSON.stringify(v, null, indent)]: every member of a non-empty array or
    object on a line of its own, indented by its depth. *)
Fixpoint spaces (n : nat) : string :=
  match n with
  | O => ""
  | S k => " " +:+ spaces k
  end.

Fixpoint JSON_stringify_indented (indent depth : nat) (v : json) : string :=
  match v with
  | JNull => "null"
  | JBool true => "true"
  | JBool false => "false"
  | JNum z => pretty z
  | JStr s => quote s
  | JArr [] => "[]"
  | JArr items =>
      let inner := spaces (indent * S depth) in
      "[" +:+ nl +:+ inner +:+
      join ("," +:+ nl +:+ inner) (map (JSON_stringify_indented indent (S depth)) items)
      +:+ nl +:+ spaces (indent * depth) +:+ "]"
  | JObj [] => "{}"
  | JObj fields =>
      let inner := spaces (indent * S depth) in
      "{" +:+ nl +:+ inner +:+
      join ("," +:+ nl +:+ inner)
        (map (fun kv => quote (fst kv) +:+ ": " +:+
                        JSON_stringify_indented indent (S depth) (snd kv)) fields)
      +:+ nl +:+ spaces (indent * depth) +:+ "}"
  end.

(** ** Arguments, configuration and options *)

(** The fields of [TaskArguments] that the actions read. *)
Record TaskArguments : Type := {
  paths : option (list string);
  cairo1BinDir : option string;
  replaceIds : bool;
  allowedLibfuncsListName : option string;
  allowedLibfuncsListFile : option string;
  singleFile : bool;
  addPythonicHints : bool;
  cairoPath : option string;
  accountContract : bool;
  disableHintValidation : bool;
  skipValidate : bool;
  starknetNetwork : option string
}.

Record NetworkConfig : Type := {
  url : string;
  verificationUrl : option string;
  verifiedUrl : option string
}.

(** [hre.config]: [paths], [starknet] and the [networks] registry. *)
Record Config : Type := {
  root : string;
  starknetSources : string;
  starknetArtifacts : string;
  cairoPaths : option (list string);
  starknet_cairo1BinDir : option string;
  starknet_network : option string;
  networks : gmap string NetworkConfig
}.

Record CairoToSierraOptions : Type := {
  c2s_path : string;
  c2s_output : string;
  c2s_binDirPath : option string;
  c2s_replaceIds : bool;
  c2s_allowedLibfuncsListName : option string;
  c2s_allowedLibfuncsListFile : option string;
  c2s_singleFile : bool
}.

Record SierraToCasmOptions : Type := {
  s2c_file : string;
  s2c_output : string;
  s2c_binDirPath : option string;
  s2c_addPythonicHints : bool;
  s2c_allowedLibfuncsListName : option string;
  s2c_allowedLibfuncsListFile : option string
}.

Record DeprecatedCompileOptions : Type := {
  dc_file : string;
  dc_output : string;
  dc_abi : string;
  dc_cairoPath : string;
  dc_accountContract : bool;
  dc_disableHintValidation : bool
}.

(** One target configuration of [[target.starknet-contract]]. *)
Record TargetConfig : Type := {
  tc_name : option string;
  tc_sierra : bool;
  tc_casm : bool
}.

(** A parsed [Scarb.toml]: the package name and, when the [target] table is
    there, its [starknet-contract] array when that is there. *)
Record ScarbConfig : Type := {
  package_name : string;
  target : option (option (list TargetConfig))
}.

(** ** The world an action runs in *)

Record CacheEntry : Type := {
  entry_output : string;
  entry_abi : string;
  entry_cairoPath : option string
}.

Inductive DevnetState : Type := Idle | Starting | Running.

(** What an action shows or asks of the outside, in the order it happens. *)
Inductive Event : Type :=
| ConsoleLog (line : string)
| ConsoleError (line : string)
| ConsoleErrorObject (e : JsError)
| CairoToSierraCall (o : CairoToSierraOptions)
| SierraToCasmCall (o : SierraToCasmOptions)
| DeprecatedCompileCall (o : DeprecatedCompileOptions)
| ScarbBuildCall (packageConfigPath artifactDirPath : string)
| UpdateCacheCall (file : string) (e : CacheEntry)
| SaveCacheCall
| HandleCacheCall
| SetProviderCall (c : NetworkConfig)
| DevnetCreated
| DevnetStartCall
| DevnetStopCall
| RunSuperCall (args : TaskArguments).

Record World : Type := {
  files : gmap string string;
  dirs : gset string;
  cache : gmap string CacheEntry;
  savedCache : gmap string CacheEntry;
  network : option string;
  networkConfig : option NetworkConfig;
  devnet : DevnetState;
  trace : list Event
}.

Definition set_files (f : gmap string string → gmap string string) (w : World) : World :=
  {| files := f (files w); dirs := dirs w; cache := cache w;
     savedCache := savedCache w; network := network w;
     networkConfig := networkConfig w; devnet := devnet w; trace := trace w |}.

Definition set_dirs (f : gset string → gset string) (w : World) : World :=
  {| files := files w; dirs := f (dirs w); cache := cache w;
     savedCache := savedCache w; network := network w;
     networkConfig := networkConfig w; devnet := devnet w; trace := trace w |}.

Definition set_cache (f : gmap string CacheEntry → gmap string CacheEntry) (w : World) : World :=
  {| files := files w; dirs := dirs w; cache := f (cache w);
     savedCache := savedCache w; network := network w;
     networkConfig := networkConfig w; devnet := devnet w; trace := trace w |}.

Definition set_savedCache (c : gmap string CacheEntry) (w : World) : World :=
  {| files := files w; dirs := dirs w; cache := cache w;
     savedCache := c; network := network w;
     networkConfig := networkConfig w; devnet := devnet w; trace := trace w |}.

Definition set_network (n : string) (c : NetworkConfig) (w : World) : World :=
  {| files := files w; dirs := dirs w; cache := cache w;
     savedCache := savedCache w; network := Some n;
     networkConfig := Some c; devnet := devnet w; trace := trace w |}.

Definition set_devnet (d : DevnetState) (w : World) : World :=
  {| files := files w; dirs := dirs w; cache := cache w;
     savedCache := savedCache w; network := network w;
     networkConfig := networkConfig w; devnet := d; trace := trace w |}.

Definition record (evs : list Event) (w : World) : World :=
  {| files := files w; dirs := dirs w; cache := cache w;
     savedCache := savedCache w; network := network w;
     networkConfig := networkConfig w; devnet := devnet w;
     trace := trace w ++ evs |}.

(** ** Computations that change the world and may throw *)

Inductive Outcome (A : Type) : Type :=
| Returned (a : A)
| Thrown (e : JsError).
Arguments Returned {A} a.
Arguments Thrown {A} e.

Definition Task (A : Type) : Type := World → Outcome A * World.

Definition ret {A} (a : A) : Task A := λ w, (Returned a, w).

Definition bind {A B} (m : Task A) (k : A → Task B) : Task B := λ w,
  match m w with
  | (Returned a, w') => k a w'
  | (Thrown e, w') => (Thrown e, w')
  end.

Declare Scope task_scope.
Delimit Scope task_scope with task.
Bind Scope task_scope with Task.
Notation "x <- m ;; k" := (bind m (λ x, k))
  (at level 100, m at next level, k at level 200, right associativity) : task_scope.
Notation "m ;; k" := (bind m (λ _, k))
  (at level 100, k at level 200, right associativity) : task_scope.
Local Open Scope task_scope.

Definition throw {A} (e : JsError) : Task A := λ w, (Thrown e, w).

(** [try { body } catch (error) { handler(error) }] *)
Definition try_catch {A} (body : Task A) (handler : JsError → Task A) : Task A :=
  λ w,
    match body w with
    | (Returned a, w') => (Returned a, w')
    | (Thrown e, w') => handler e w'
    end.

Definition modify (f : World → World) : Task unit := λ w, (Returned tt, f w).

Definition inspect {A} (f : World → A) : Task A := λ w, (Returned (f w), w).

Definition emit (e : Event) : Task unit := modify (record [e]).

(** A [for ... of] loop whose body updates the local variables [acc] (the
    counter [statusCode], or the list being collected); a [continue] is the
    body returning, a throw leaves the loop. *)
Fixpoint for_of {A S} (items : list A) (body : A → S → Task S) (acc : S) : Task S :=
  match items with
  | [] => ret acc
  | x :: rest => acc' <- body x acc;; for_of rest body acc'
  end.

(** ** Node's [fs] and [console] *)

Definition console_log (line : string) : Task unit := emit (ConsoleLog line).
Definition console_error (line : string) : Task unit := emit (ConsoleError line).

Definition exists_in (w : World) (p : string) : bool :=
  bool_decide (is_Some (files w !! p)) || bool_decide (p ∈ dirs w).

Definition existsSync (p : string) : Task bool := inspect (λ w, exists_in w p).

(** [fs.unlinkSync(p)] of a regular file: the file is gone. *)
Definition unlinkSync (p : string) : Task unit := modify (set_files (delete p)).

(** [fs.closeSync(fs.openSync(p, "w"))], where [p] is not a directory and
    the directory it is in is there: the file is there and empty. *)
Definition open_w_close (p : string) : Task unit := modify (set_files (insert p "")).

Definition mkdirSync_recursive (p : string) : Task unit :=
  modify (set_dirs (λ d, {[p]} ∪ d)).

Definition readFileSync (p : string) : Task string := λ w,
  match files w !! p with
  | Some content => (Returned content, w)
  | None => (Thrown (ENOENT p), w)
  end.

Definition writeFileSync (p content : string) : Task unit :=
  modify (set_files (insert p content)).

Definition copyFileSync (src dst : string) : Task unit :=
  content <- readFileSync src;; writeFileSync dst content.

(** ** What the actions import *)

(** Node's [path], the built-in [JSON.parse], [@iarna/toml]'s [parse], and
    [String.prototype.replace] with the pattern [new RegExp("^" + prefix)]. *)
Class NodeLibs : Type := {
  path_join : string → string → string;
  path_basename : string → string;
  path_basename_ext : string → string → string;
  path_extname : string → string;
  path_dirname : string → string;
  path_isAbsolute : string → bool;
  replace_prefix : string → string → string;
  JSON_parse : string → option json;
  toml_parse : string → option ScarbConfig
}.

(** [./constants]. *)
Class Constants : Type := {
  ABI_SUFFIX : string;
  CAIRO1_SIERRA_SUFFIX : string;
  CAIRO1_ASSEMBLY_SUFFIX : string;
  DEFAULT_STARKNET_NETWORK : string
}.

(** [./utils]. [traverseFiles] enumerates the source tree, which the actions
    do not write to; it is given the root and the glob. *)
Class Utils : Type := {
  adaptLog : string → string;
  adaptPath : string → string → string;
  traverseFiles : string → string → list string;
  isStarknetDevnet : option string → bool
}.

(** [hre.starknetWrapper]: each compiler run gives its [ProcessResult] and
    what it wrote to the output paths it was given, as a function of the
    invocation options. *)
Class StarknetWrapper : Type := {
  compileCairoToSierra : CairoToSierraOptions → ProcessResult * option string;
  compileSierraToCasm : SierraToCasmOptions → ProcessResult * option string;
  deprecatedCompile :
    DeprecatedCompileOptions → ProcessResult * option string * option string
}.

(** [ScarbWrapper.getInstance(args, hre).build]: the result and the files
    Scarb wrote. *)
Class ScarbWrapper : Type := {
  scarb_build : string → string → ProcessResult * gmap string string
}.

(** [createIntegratedDevnet(hre).start()]: whether starting fails. *)
Class ExternalServer : Type := {
  devnet_start_failure : option JsError
}.

(** The unit of work handed to the test and run actions: Hardhat's
    [runSuper], which may change files and may throw. *)
Definition RunSuperFunction : Type :=
  TaskArguments → gmap string string → Outcome unit * gmap string string.

Section Actions.
Context `{NodeLibs, Constants, Utils, StarknetWrapper, ScarbWrapper, ExternalServer}.

(** ** The collaborators that are outside [task-actions.ts] *)

(** Modelled from the spec: [Recompiler.updateCache] of [./recompiler],
    which upserts the entry of a source file. *)
Definition updateCache (file output abi : string) (cairoPath : option string)
  : Task unit :=
  let e := {| entry_output := output; entry_abi := abi; entry_cairoPath := cairoPath |} in
  emit (UpdateCacheCall file e);;
  modify (set_cache (insert file e)).

(** Modelled from the spec: [Recompiler.saveCache] of [./recompiler], which
    persists the full cache table. *)
Definition saveCache : Task unit :=
  emit SaveCacheCall;;
  modify (λ w, set_savedCache (cache w) w).

(** Modelled from the spec: [Recompiler.handleCache] of [./recompiler], the
    flush that precedes a test or run action. *)
Definition handleCache : Task unit :=
  emit HandleCacheCall;;
  modify (λ w, set_savedCache (cache w) w).

(** Modelled from the spec: [getNetwork] of [./utils], which looks the name
    up in the registry and fails, naming the origin of the name, when there
    is no entry for it. *)
Definition getNetwork (networkName : string) (registry : gmap string NetworkConfig)
    (origin : string) : Task NetworkConfig :=
  match registry !! networkName with
  | Some c => ret c
  | None => throw (UnknownNetworkError origin networkName)
  end.

(** Modelled from the spec: the devnet handle of [./external-server], with
    the states Idle, Starting and Running of its life cycle. *)
Definition createIntegratedDevnet : Task unit := emit DevnetCreated.

Definition devnet_start : Task unit :=
  emit DevnetStartCall;;
  modify (set_devnet Starting);;
  match devnet_start_failure with
  | Some e => throw e
  | None => modify (set_devnet Running)
  end.

Definition devnet_stop : Task unit :=
  emit DevnetStopCall;;
  modify (set_devnet Idle).

(** ** External calls *)

Definition write_output (p : string) (content : option string) : Task unit :=
  match content with
  | Some c => modify (set_files (insert p c))
  | None => ret tt
  end.

Definition call_compileCairoToSierra (o : CairoToSierraOptions) : Task ProcessResult :=
  emit (CairoToSierraCall o);;
  write_output (c2s_output o) (compileCairoToSierra o).2;;
  ret (compileCairoToSierra o).1.

Definition call_compileSierraToCasm (o : SierraToCasmOptions) : Task ProcessResult :=
  emit (SierraToCasmCall o);;
  write_output (s2c_output o) (compileSierraToCasm o).2;;
  ret (compileSierraToCasm o).1.

Definition call_deprecatedCompile (o : DeprecatedCompileOptions) : Task ProcessResult :=
  emit (DeprecatedCompileCall o);;
  write_output (dc_output o) (deprecatedCompile o).1.2;;
  write_output (dc_abi o) (deprecatedCompile o).2;;
  ret (deprecatedCompile o).1.1.

Definition call_scarb_build (packageConfigPath artifactDirPath : string)
  : Task ProcessResult :=
  emit (ScarbBuildCall packageConfigPath artifactDirPath);;
  modify (set_files (λ fs, (scarb_build packageConfigPath artifactDirPath).2 ∪ fs));;
  ret (scarb_build packageConfigPath artifactDirPath).1.

Definition call_runSuper (runSuper : RunSuperFunction) (args : TaskArguments)
  : Task unit := λ w,
  let r := runSuper args (files w) in
  (r.1, set_files (λ _, r.2) (record [RunSuperCall args] w)).

(** ** The helpers of [task-actions.ts] *)

Definition checkSourceExists (sourcePath : string) : Task unit :=
  ex <- existsSync sourcePath;;
  if negb ex then
    throw (StarknetPluginError
             ("Source expected to be at " +:+ sourcePath +:+ ", but not found."))
  else ret tt.

(** Transfers the logs and gives 0 if the process succeeded, 1 otherwise. *)
Definition processExecuted (executed : ProcessResult) (logStatus : bool) : Task nat :=
  (if negb (String.eqb (stdout executed) "")
   then console_log (adaptLog (stdout executed)) else ret tt);;
  (if negb (String.eqb (stderr executed) "")
   then console_error (adaptLog (stderr executed)) else ret tt);;
  (if logStatus
   then console_log (tab +:+ (if Z.eqb (statusCode executed) 0 then "Succeeded ✅" else "Failed")
                     +:+ nl)
   else ret tt);;
  ret (if Z.eqb (statusCode executed) 0 then 0%nat else 1%nat).

Definition initializeFile (filePath : string) : Task unit :=
  ex <- existsSync filePath;;
  (if ex then unlinkSync filePath else ret tt);;
  open_w_close filePath.

Definition getFileName (filePath : string) : string :=
  path_basename_ext filePath (path_extname filePath).

Definition getCompilerBinDir (args : TaskArguments) (config : Config) : option string :=
  or_else (cairo1BinDir args) (starknet_cairo1BinDir config).

(** [s.split(":")] *)
Fixpoint split_colon (s : string) : list string :=
  match s with
  | EmptyString => [""]
  | String c rest =>
      if Ascii.eqb c ":" then "" :: split_colon rest
      else match split_colon rest with
           | [] => [String c ""]
           | h :: t => String c h :: t
           end
  end.

(** ** Reading parsed JSON *)

(** The own property [key] of a value that is not [null]: [undefined] where
    there is none. *)
Definition property (key : string) (v : json) : option json :=
  match v with
  | JObj fields => snd <$> List.find (λ kv, String.eqb (fst kv) key) fields
  | _ => None
  end.

(** [v.key]: a TypeError on [null]. *)
Definition get_property (key : string) (v : json) : Task (option json) :=
  match v with
  | JNull => throw (TypeError ("Cannot read properties of null (reading '" +:+ key +:+ "')"))
  | _ => ret (property key v)
  end.

(** [v.key] where [v] itself may be [undefined]. *)
Definition get_property_opt (key : string) (v : option json) : Task (option json) :=
  match v with
  | None =>
      throw (TypeError ("Cannot read properties of undefined (reading '" +:+ key +:+ "')"))
  | Some j => get_property key j
  end.

(** [JSON.stringify(v)] of a value that may be [undefined], as the operand
    of [+ "\n"]. *)
Definition stringify_operand (v : option json) : string :=
  match v with
  | Some j => JSON_stringify j
  | None => "undefined"
  end.

Definition parse_json (content : string) : Task json :=
  match JSON_parse content with
  | Some j => ret j
  | None => throw (SyntaxError content)
  end.

(** The names of a contract entry, which Scarb writes as strings. *)
Definition get_name (key : string) (entry : json) : Task string :=
  v <- get_property key entry;;
  match v with
  | Some (JStr name) => ret name
  | _ => throw (TypeError ("contract entry without a string " +:+ key))
  end.

(** [contractEntry.artifacts.key] as the condition of an [if] and, when
    truthy, a relative path. *)
Definition get_artifact (key : string) (artifacts : option json) : Task (option string) :=
  v <- get_property_opt key artifacts;;
  match v with
  | Some (JStr rel) => ret (if String.eqb rel "" then None else Some rel)
  | Some (JBool true) | Some (JArr _) | Some (JObj _) =>
      throw (TypeError "The path argument must be of type string")
  | Some (JNum z) =>
      if Z.eqb z 0 then ret None
      else throw (TypeError "The path argument must be of type string")
  | _ => ret None
  end.

(** ** Manifests and build reports *)

(** A target configuration applies when its [name] is left out or equals
    the package name. *)
Definition applies (packageName : string) (c : TargetConfig) : bool :=
  negb (truthy (tc_name c)) ||
  match tc_name c with
  | Some n => String.eqb n packageName
  | None => false
  end.

Definition name_message : string :=
  "Property 'name' of [[target.starknet-contract]] must be left out or equal the [package] name".

Definition sierra_casm_message : string :=
  "To allow later loading of this project's contracts, " +:+
  "your TOML file must set 'sierra' and 'casm' to `true` under [[target.starknet-contract]]".

Definition loadScarbTomlFromPath (tomlPath : string) (validate : bool) : Task ScarbConfig :=
  content <- readFileSync tomlPath;;
  config <- match toml_parse content with
            | Some c => ret c
            | None => throw (SyntaxError content)
            end;;
  let packageName := package_name config in
  if validate then
    contractTargetConfigs <-
      match target config with
      | None =>
          throw (TypeError "Cannot read properties of undefined (reading 'starknet-contract')")
      | Some configs => ret (default [] configs)
      end;;
    let configCandidates := List.filter (applies packageName) contractTargetConfigs in
    if Nat.eqb (List.length configCandidates) 0 then
      throw (ScarbConfigValidationError tomlPath name_message)
    else
      match head configCandidates with
      | Some contractTargetConfig =>
          if negb (tc_sierra contractTargetConfig) || negb (tc_casm contractTargetConfig)
          then throw (ScarbConfigValidationError tomlPath sierra_casm_message)
          else ret config
      | None => throw (ScarbConfigValidationError tomlPath sierra_casm_message)
      end
  else ret config.

Definition report_path (scarbArtifactDirPath packageName : string) : string :=
  path_join scarbArtifactDirPath (packageName +:+ ".starknet_artifacts.json").

Definition loadScarbMainArtifact (scarbArtifactDirPath packageName : string) : Task json :=
  let mainPackageArtifactPath := report_path scarbArtifactDirPath packageName in
  ex <- existsSync mainPackageArtifactPath;;
  if negb ex then
    throw (StarknetPluginError
             ("Error in building " +:+ packageName +:+ ", could not find " +:+
              mainPackageArtifactPath))
  else
    content <- readFileSync mainPackageArtifactPath;;
    parse_json content.

Definition findPackageConfigPaths (traversablePaths : list string) (root : string)
    (configFileName : string) : Task (list string) :=
  packageConfigPaths <-
    for_of traversablePaths
      (λ traversablePath packageConfigPaths,
         let traversablePath := adaptPath root traversablePath in
         checkSourceExists traversablePath;;
         let traversionResult := traverseFiles traversablePath configFileName in
         ret (List.app packageConfigPaths
                (List.filter (λ p, String.eqb (path_basename p) configFileName)
                   traversionResult)))
      [];;
  if Nat.eqb (List.length packageConfigPaths) 0 then
    throw (StarknetPluginError
             ("No projects to build. Could not find directories containing " +:+
              configFileName))
  else ret packageConfigPaths.

(** The block under "Copy abi array from output to abiOutput", which the
    two-stage and the manifest-based pipeline both have. *)
Definition copyAbi (sierraPath abiOutput : string) : Task unit :=
  initializeFile abiOutput;;
  content <- readFileSync sierraPath;;
  outputJson <- parse_json content;;
  abi <- get_property "abi" outputJson;;
  writeFileSync abiOutput (stringify_operand abi +:+ nl).

(** The summary thrown after a batch with failures. *)
Definition failure_message (what unit_name : string) (statusCode : nat) : string :=
  "Failed " +:+ what +:+ " of " +:+ pretty statusCode +:+ " " +:+ unit_name +:+
  (if Nat.eqb statusCode 1 then "" else "s") +:+ ".".

Definition throw_if_failed (what unit_name : string) (statusCode : nat) : Task unit :=
  if Nat.eqb statusCode 0 then ret tt
  else throw (StarknetPluginError (failure_message what unit_name statusCode)).

(** ** The two-stage pipeline *)

Section Cairo1.
Variables (args : TaskArguments) (config : Config).

Definition cairo1_dirPath (file : string) : string :=
  path_join (starknetArtifacts config) (replace_prefix (root config) file).

Definition cairo1_fileName (file : string) : string :=
  getFileName (replace_prefix (root config) file).

Definition cairo1_outputPath (file : string) : string :=
  path_join (cairo1_dirPath file) (cairo1_fileName file +:+ CAIRO1_SIERRA_SUFFIX).

Definition cairo1_abiOutput (file : string) : string :=
  path_join (cairo1_dirPath file) (cairo1_fileName file +:+ ABI_SUFFIX).

Definition cairo1_casmOutput (file : string) : string :=
  path_join (cairo1_dirPath file) (cairo1_fileName file +:+ CAIRO1_ASSEMBLY_SUFFIX).

Definition cairo1_sierra_options (file : string) : CairoToSierraOptions :=
  {| c2s_path := file;
     c2s_output := cairo1_outputPath file;
     c2s_binDirPath := getCompilerBinDir args config;
     c2s_replaceIds := replaceIds args;
     c2s_allowedLibfuncsListName := allowedLibfuncsListName args;
     c2s_allowedLibfuncsListFile := allowedLibfuncsListFile args;
     c2s_singleFile := singleFile args |}.

Definition cairo1_casm_options (file : string) : SierraToCasmOptions :=
  {| s2c_file := cairo1_outputPath file;
     s2c_output := cairo1_casmOutput file;
     s2c_binDirPath := getCompilerBinDir args config;
     s2c_addPythonicHints := addPythonicHints args;
     s2c_allowedLibfuncsListName := allowedLibfuncsListName args;
     s2c_allowedLibfuncsListFile := allowedLibfuncsListFile args |}.

(** The body of the loop over the files of one sources path. *)
Definition compileCairo1File (file : string) (statusCode0 : nat) : Task nat :=
  console_log ("Compiling " +:+ file);;
  let outputPath := cairo1_outputPath file in
  mkdirSync_recursive (cairo1_dirPath file);;
  initializeFile outputPath;;
  (* Compile to sierra representation *)
  executed <- call_compileCairoToSierra (cairo1_sierra_options file);;
  failed <- processExecuted executed true;;
  let statusCode1 := (statusCode0 + failed)%nat in
  if negb (Z.eqb (statusCode executed) 0) then
    (* continue with compiling to casm only if compiling to sierra succeeded *)
    ret statusCode1
  else
    (* Copy abi array from output to abiOutput *)
    let abiOutput := cairo1_abiOutput file in
    copyAbi outputPath abiOutput;;
    let casmOutput := cairo1_casmOutput file in
    initializeFile casmOutput;;
    (* Compile sierra to casm representation *)
    executed <- call_compileSierraToCasm (cairo1_casm_options file);;
    failed <- processExecuted executed true;;
    let statusCode2 := (statusCode1 + failed)%nat in
    (* Update cache after compilation *)
    updateCache file outputPath abiOutput None;;
    ret statusCode2.

(** The body of the loop over the sources paths. *)
Definition compileCairo1Sources (sourcesPath : string) (statusCode0 : nat) : Task nat :=
  let sourcesPath := adaptPath (root config) sourcesPath in
  checkSourceExists sourcesPath;;
  let files := traverseFiles sourcesPath "*.cairo" in
  statusCode1 <- for_of files compileCairo1File statusCode0;;
  saveCache;;
  ret statusCode1.

Definition starknetCompileCairo1Action : Task unit :=
  let sourcesPaths := default [starknetSources config] (paths args) in
  statusCode <- for_of sourcesPaths compileCairo1Sources 0%nat;;
  throw_if_failed "compilation" "contract" statusCode.
End Cairo1.

(** ** The legacy pipeline *)

Section Deprecated.
Variables (args : TaskArguments) (config : Config).

Definition deprecated_cairoPath : string :=
  let cairoPaths :=
    ([starknetSources config; root config] ++
     (if truthy (cairoPath args) then split_colon (default "" (cairoPath args)) else []) ++
     default [] (cairoPaths config))%list in
  join ":" (map (λ p, if path_isAbsolute p then p else adaptPath (root config) p) cairoPaths).

Definition deprecated_dirPath (file : string) : string :=
  path_join (starknetArtifacts config) (replace_prefix (root config) file).

Definition deprecated_fileName (file : string) : string :=
  getFileName (replace_prefix (root config) file).

Definition deprecated_outputPath (file : string) : string :=
  path_join (deprecated_dirPath file) (deprecated_fileName file +:+ ".json").

Definition deprecated_abiPath (file : string) : string :=
  path_join (deprecated_dirPath file) (deprecated_fileName file +:+ ABI_SUFFIX).

Definition deprecated_options (file : string) : DeprecatedCompileOptions :=
  {| dc_file := file;
     dc_output := deprecated_outputPath file;
     dc_abi := deprecated_abiPath file;
     dc_cairoPath := deprecated_cairoPath;
     dc_accountContract := accountContract args;
     dc_disableHintValidation := disableHintValidation args |}.

(** The body of the loop over the files of one sources path. *)
Definition compileDeprecatedFile (file : string) (statusCode0 : nat) : Task nat :=
  console_log ("Compiling " +:+ file);;
  let outputPath := deprecated_outputPath file in
  let abiPath := deprecated_abiPath file in
  mkdirSync_recursive (deprecated_dirPath file);;
  initializeFile outputPath;;
  initializeFile abiPath;;
  executed <- call_deprecatedCompile (deprecated_options file);;
  (* Update cache after compilation *)
  updateCache file outputPath abiPath (Some deprecated_cairoPath);;
  failed <- processExecuted executed true;;
  ret (statusCode0 + failed)%nat.

(** The body of the loop over the sources paths. *)
Definition compileDeprecatedSources (sourcesPath : string) (statusCode0 : nat) : Task nat :=
  let sourcesPath := adaptPath (root config) sourcesPath in
  checkSourceExists sourcesPath;;
  let files := traverseFiles sourcesPath "*.cairo" in
  statusCode1 <- for_of files compileDeprecatedFile statusCode0;;
  saveCache;;
  ret statusCode1.

Definition starknetDeprecatedCompileAction : Task unit :=
  let sourcesPaths := default [starknetSources config] (paths args) in
  statusCode <- for_of sourcesPaths compileDeprecatedSources 0%nat;;
  throw_if_failed "compilation" "contract" statusCode.
End Deprecated.

(** ** The manifest-based pipeline *)

Section Build.
Variables (args : TaskArguments) (config : Config).

Definition build_artifactDirPath (packageConfigPath : string) : string :=
  path_join (starknetArtifacts config)
    (replace_prefix (root config) (path_dirname packageConfigPath)).

(** The body of the loop over the contract entries of a build report. *)
Definition copyContractArtifacts (artifactDirPath scarbArtifactDirPath : string)
    (contractEntry : json) : Task unit :=
  package <- get_name "package_name" contractEntry;;
  contract <- get_name "contract_name" contractEntry;;
  (* package_contract (underscore separation) *)
  let fileName := package +:+ "_" +:+ contract in
  (* artifact dir created by us, not the one created by scarb *)
  let ourArtifactDirPath := path_join artifactDirPath (fileName +:+ ".cairo") in
  mkdirSync_recursive ourArtifactDirPath;;
  artifacts <- get_property "artifacts" contractEntry;;
  sierra <- get_artifact "sierra" artifacts;;
  match sierra with
  | Some rel =>
      let scarbSierraPath := path_join scarbArtifactDirPath rel in
      let ourSierraPath := path_join ourArtifactDirPath (fileName +:+ CAIRO1_SIERRA_SUFFIX) in
      copyFileSync scarbSierraPath ourSierraPath;;
      copyAbi scarbSierraPath (path_join ourArtifactDirPath (fileName +:+ ABI_SUFFIX))
  | None => ret tt
  end;;
  casm <- get_artifact "casm" artifacts;;
  match casm with
  | Some rel =>
      copyFileSync (path_join scarbArtifactDirPath rel)
        (path_join ourArtifactDirPath (fileName +:+ CAIRO1_ASSEMBLY_SUFFIX))
  | None => ret tt
  end.

(** [for (const contractEntry of mainPackageArtifact.contracts)] *)
Definition copyAllContractArtifacts (artifactDirPath scarbArtifactDirPath : string)
    (mainPackageArtifact : json) : Task unit :=
  contracts <- get_property "contracts" mainPackageArtifact;;
  match contracts with
  | Some (JArr entries) =>
      for_of entries
        (λ contractEntry _, copyContractArtifacts artifactDirPath scarbArtifactDirPath
                              contractEntry)
        tt
  | _ => throw (TypeError "mainPackageArtifact.contracts is not iterable")
  end.

(** The body of the loop over the package manifests. *)
Definition buildPackage (packageConfigPath : string) (statusCode0 : nat) : Task nat :=
  (* each config path is assumed to be of format $hardhat_project_root/<CAIRO_DIR>/Scarb.toml *)
  loaded <- try_catch
              (packageConfig <- loadScarbTomlFromPath packageConfigPath
                                  (negb (skipValidate args));;
               ret (Some packageConfig))
              (λ error, emit (ConsoleErrorObject error);; ret None);;
  match loaded with
  | None => ret (statusCode0 + 1)%nat
  | Some packageConfig =>
      let packageName := package_name packageConfig in
      let packageDir := path_dirname packageConfigPath in
      console_log ("Building package " +:+ packageName +:+ " from " +:+ packageDir);;
      let artifactDirPath := build_artifactDirPath packageConfigPath in
      executed <- call_scarb_build packageConfigPath artifactDirPath;;
      failed <- processExecuted executed true;;
      let statusCode1 := (statusCode0 + failed)%nat in
      if negb (Z.eqb (statusCode executed) 0) then ret statusCode1
      else
        (* by default (dev mode, unlike the release mode), scarb stores artifacts in subdir "dev" *)
        let scarbArtifactDirPath := path_join artifactDirPath "dev" in
        (* load scarb's main build artifact *)
        mainPackageArtifact <- loadScarbMainArtifact scarbArtifactDirPath packageName;;
        copyAllContractArtifacts artifactDirPath scarbArtifactDirPath mainPackageArtifact;;
        ret statusCode1
  end.

Definition starknetBuildAction : Task unit :=
  let traversablePaths := default [starknetSources config] (paths args) in
  packageConfigPaths <- findPackageConfigPaths traversablePaths (root config) "Scarb.toml";;
  statusCode <- for_of packageConfigPaths buildPackage 0%nat;;
  throw_if_failed "building" "project" statusCode.
End Build.

(** ** Network resolution and the supervised test and run actions *)

Definition setRuntimeNetwork (args : TaskArguments) (config : Config) : Task unit :=
  resolved <-
    (if truthy (starknetNetwork args) then
       let networkName := default "" (starknetNetwork args) in
       networkConfig <- getNetwork networkName (networks config) "--starknet-network";;
       ret (networkName, networkConfig)
     else if truthy (starknet_network config) then
       let networkName := default "" (starknet_network config) in
       networkConfig <- getNetwork networkName (networks config)
                          "starknet.network in hardhat.config";;
       ret (networkName, networkConfig)
     else
       let networkName := DEFAULT_STARKNET_NETWORK in
       networkConfig <- getNetwork networkName (networks config) "default settings";;
       ret (networkName, networkConfig));;
  modify (set_network resolved.1 resolved.2);;
  emit (SetProviderCall resolved.2);;
  console_log ("Using network " +:+ resolved.1 +:+ " at " +:+ url resolved.2).

Definition runWithDevnet (fn : Task unit) : Task unit :=
  current <- inspect network;;
  if negb (isStarknetDevnet current) then
    fn;;
    ret tt
  else
    createIntegratedDevnet;;
    devnet_start;;
    fn;;
    devnet_stop.

Definition starknetTestAction (args : TaskArguments) (config : Config)
    (runSuper : RunSuperFunction) : Task unit :=
  setRuntimeNetwork args config;;
  handleCache;;
  runWithDevnet (call_runSuper runSuper args).

Definition run_flag_message : string :=
  "Using " +:+ dquote +:+ "--starknet-network" +:+ dquote +:+ " with " +:+ dquote +:+
  "hardhat run" +:+ dquote +:+ " currently does not have effect." +:+ nl +:+
  "Use the " +:+ dquote +:+ "network" +:+ dquote +:+ " property of the " +:+ dquote +:+
  "starknet" +:+ dquote +:+ " object in your hardhat config file.".

Definition starknetRunAction (args : TaskArguments) (config : Config)
    (runSuper : RunSuperFunction) : Task unit :=
  if truthy (starknetNetwork args) then
    throw (StarknetPluginError run_flag_message)
  else
    setRuntimeNetwork args config;;
    handleCache;;
    runWithDevnet (call_runSuper runSuper args).
End Actions.

(** * The verification and migration actions *)

(** The fields of [TaskArguments] that the Voyager verification reads. *)
Record VerifyArguments : Type := {
  va_address : string;
  va_path : string;
  va_compilerVersion : string;
  va_license : option string;
  va_accountContract : bool;
  va_paths : option (list string);
  va_starknetNetwork : option string
}.

(** One field of a [FormData] body, with the options given to [append]. *)
Record FormPart : Type := {
  part_name : string;
  part_value : string;
  part_filepath : option string;
  part_contentType : option string
}.

(** How [axios.post] is rejected: with a response, whose [data.message] may
    be there, or with no response at all. *)
Inductive PostError : Type :=
| HttpError (message : option string)
| NoResponse.

(** [axios]: the data of the response to a GET, or its rejection, and the
    rejection of a POST if there is one. *)
Class Axios : Type := {
  axios_get : string → Outcome json;
  axios_post : string → list FormPart → option PostError
}.

(** [ALPHA_TESTNET] of [./constants]. *)
Class VerificationConstants : Type := {
  ALPHA_TESTNET : string
}.

(** [hre.starknetWrapper.migrateContract]: the result and the files it
    rewrote. *)
Class Migrator : Type := {
  migrateContract : list string → bool → ProcessResult * gmap string string
}.

(** [items.forEach((item, index) => ...)] whose callback updates [acc]. *)
Fixpoint forEach_from {A B} (index : nat) (items : list A)
    (callback : A → nat → B → Task B) (acc : B) : Task B :=
  match items with
  | [] => ret acc
  | item :: rest =>
      acc' <- callback item index acc;;
      forEach_from (S index) rest callback acc'
  end.

(** Truthiness of a property that may be [undefined]. *)
Definition json_truthy (v : option json) : bool :=
  match v with
  | None | Some JNull | Some (JBool false) => false
  | Some (JNum z) => negb (Z.eqb z 0)
  | Some (JStr s) => negb (String.eqb s "")
  | Some _ => true
  end.

(** [c.length > 0 || Object.keys(c).length > 0] for a truthy [c]. *)
Definition has_content (c : json) : bool :=
  match c with
  | JStr s => negb (String.eqb s "")
  | JArr items => negb (Nat.eqb (List.length items) 0)
  | JObj fields => negb (Nat.eqb (List.length fields) 0)
  | _ => false
  end.

Definition no_license : string := "No License (None)".

Definition verification_failure_reasons : string :=
  "It is hard to tell exactly what happened, but possible reasons include:" +:+ nl +:+
  "- Deployment transaction hasn't been accepted or indexed yet (check its tx_status or try in a minute)"
  +:+ nl +:+
  "- Wrong contract address" +:+ nl +:+
  "- Wrong files provided" +:+ nl +:+
  "- Wrong main contract chosen (first after --path)" +:+ nl +:+
  "- Voyager is down".

Definition could_not_verify (address detail : string) : string :=
  "Could not verify the contract at address " +:+ address +:+ "." +:+ nl +:+
  detail +:+ nl +:+ "            ".

Definition check_failed_message : string :=
  "Something went wrong while checking if the contract has already been verified.".

Section Verification.
Context `{NodeLibs, Constants, Utils, StarknetWrapper, ScarbWrapper, ExternalServer}.
Context `{Axios, VerificationConstants, Migrator}.

(** Extracts the verification URL assigned to the network provided. If no
    [networkName] is provided, defaults to Alpha testnet. *)
Definition getVerificationNetwork (networkName : option string) (config : Config)
    (origin : string) : Task (string * NetworkConfig) :=
  let networkName := default "" (or_else networkName (Some ALPHA_TESTNET)) in
  network <- getNetwork networkName (networks config) origin;;
  if negb (truthy (verificationUrl network)) then
    throw (StarknetPluginError
             ("Network " +:+ networkName +:+ " does not support Voyager verification."))
  else ret (networkName, network).

Definition getMainVerificationPath (contractPath root : string) : Task string :=
  if negb (path_isAbsolute contractPath) then
    let contractPath := adaptPath root contractPath in
    ex <- existsSync contractPath;;
    if negb ex then
      throw (StarknetPluginError ("File " +:+ contractPath +:+ " does not exist"))
    else ret contractPath
  else ret contractPath.

(** The callback of [paths.forEach] in [handleMultiPartContractVerification]:
    [sourcePrefix] is the text that [sourceRegex] anchors at the start. *)
Definition appendContractFile (root sourcePrefix : string) (item : string) (index : nat)
    (bodyFormData : list FormPart) : Task (list FormPart) :=
  resolved <-
    (if negb (path_isAbsolute item) then
       let adapted := adaptPath root item in
       ex <- existsSync adapted;;
       if negb ex then
         throw (StarknetPluginError ("File " +:+ adapted +:+ " does not exist"))
       else ret adapted
     else ret item);;
  content <- readFileSync resolved;;
  ret (bodyFormData ++
       [{| part_name := "file" +:+ pretty index;
           part_value := content;
           part_filepath := Some (replace_prefix sourcePrefix resolved);
           part_contentType := Some "application/octet-stream" |}]).

Definition handleMultiPartContractVerification (bodyFormData : list FormPart)
    (paths : list string) (root sourcePrefix : string) : Task (list FormPart) :=
  forEach_from 0 paths (appendContractFile root sourcePrefix) bodyFormData.

Definition text_field (name value : string) : FormPart :=
  {| part_name := name; part_value := value;
     part_filepath := None; part_contentType := None |}.

Definition handleContractVerification (args : VerifyArguments)
    (voyagerUrl verifiedUrl : string) (config : Config) : Task unit :=
  (* Set main contract path *)
  mainPath <- getMainVerificationPath (va_path args) (root config);;
  let bodyFormData :=
    [text_field "compiler-version" (va_compilerVersion args);
     text_field "account-contract" (if va_accountContract args then "true" else "false");
     text_field "license" (default "" (or_else (va_license args) (Some no_license)))] in
  (* Dependencies (non-main contracts) are in args.paths *)
  let paths := mainPath :: default [] (va_paths args) in
  let sourcePrefix := starknetSources config +:+ "/" in
  let contractNameDefault := replace_prefix sourcePrefix mainPath in
  let bodyFormData := bodyFormData ++ [text_field "contract-name" contractNameDefault] in
  bodyFormData <- handleMultiPartContractVerification bodyFormData paths (root config)
                    sourcePrefix;;
  match axios_post voyagerUrl bodyFormData with
  | Some (HttpError message) =>
      throw (StarknetPluginError
               (could_not_verify (va_address args)
                  (default "" (or_else message (Some verification_failure_reasons)))))
  | Some NoResponse =>
      throw (TypeError "Cannot read properties of undefined (reading 'data')")
  | None =>
      console_log ("Contract has been successfully verified at address " +:+ va_address args);;
      console_log ("Check it out on Voyager: " +:+ verifiedUrl)
  end.

(** The [try] block of [starknetVoyagerAction]. *)
Definition checkVerified (voyagerUrl : string) : Task bool :=
  match axios_get voyagerUrl with
  | Thrown e => throw e
  | Returned data =>
      contract <- get_property "contract" data;;
      if json_truthy contract then
        match contract with
        | Some c => ret (has_content c)
        | None => ret false
        end
      else ret false
  end.

Definition starknetVoyagerAction (args : VerifyArguments) (config : Config) : Task unit :=
  resolved <- getVerificationNetwork (va_starknetNetwork args) config "--starknet-network";;
  let network := resolved.2 in
  let voyagerUrl := default "undefined" (verificationUrl network) +:+ va_address args +:+ "/code" in
  let verifiedUrl := default "undefined" (verifiedUrl network) +:+ va_address args +:+ "#code" in
  isVerified <- try_catch (checkVerified voyagerUrl)
                  (λ _, throw (StarknetPluginError check_failed_message));;
  if isVerified then
    console_log ("Contract at address " +:+ va_address args +:+ " has already been verified");;
    console_log ("Check it out on Voyager: " +:+ verifiedUrl)
  else handleContractVerification args voyagerUrl verifiedUrl config.

(** [args.inplace] is the only field that [TaskArguments] above lacks. *)
Definition starknetMigrateAction (args : TaskArguments) (inplace : bool) (config : Config)
  : Task unit :=
  match paths args with
  | None | Some [] => throw (StarknetPluginError "Expected at least one file to migrate")
  | Some files =>
      let cairoFiles := adaptPath (root config) <$> files in
      let result := migrateContract cairoFiles inplace in
      modify (set_files (λ fs, result.2 ∪ fs));;
      processExecuted result.1 true;;
      ret tt
  end.

End Verification.


(** * Properties of the actions *)

Definition is_devnet_event (e : Event) : bool :=
  match e with
  | DevnetCreated | DevnetStartCall | DevnetStopCall => true
  | _ => false
  end.

(** The calls made on the integrated devnet, in order. *)
Definition devnet_events (t : list Event) : list Event := List.filter is_devnet_event t.

Definition is_stop (e : Event) : bool :=
  match e with
  | DevnetStopCall => true
  | _ => false
  end.

Definition is_manifest_event (e : Event) : bool :=
  match e with
  | ScarbBuildCall _ _ | ConsoleErrorObject _ => true
  | _ => false
  end.

(** What the trace shows of the manifests that were processed: a build, or
    a logged error. *)
Definition manifest_events (t : list Event) : list Event :=
  List.filter is_manifest_event t.

(** How many times [stop()] ran. *)
Definition stop_calls (t : list Event) : nat := List.length (List.filter is_stop t).





Definition is_cache_update (e : Event) : bool :=
  match e with
  | UpdateCacheCall _ _ => true
  | _ => false
  end.

(** The invocations of [updateCache], in order. *)
Definition cache_updates (t : list Event) : list Event := List.filter is_cache_update t.

(** A computation that has nothing to do with the cache: whatever the world
    it starts in and however it ends, the cache table is as it was and
    [updateCache] was not invoked. *)
Definition leaves_cache {A} (m : Task A) : Prop :=
  ∀ w, cache (m w).2 = cache w ∧
       cache_updates (trace (m w).2) = cache_updates (trace w).

(** Whether a text has a line break in it. *)
Fixpoint contains_newline (s : string) : bool :=
  match s with
  | EmptyString => false
  | String c rest => Ascii.eqb c "010" || contains_newline rest
  end.

(** A text is the pretty-printed form of a value when it is what
    [JSON.stringify] gives with some indentation. *)
Definition pretty_printed (text : string) (v : json) : Prop :=
  ∃ indent, (0 < indent)%nat ∧ text = JSON_stringify_indented indent 0 v.

(** The exit status as [processExecuted] counts it. *)
Definition status_bit (executed : ProcessResult) : nat :=
  if Z.eqb (statusCode executed) 0 then 0%nat else 1%nat.

Section Summaries.
Context `{NodeLibs, Constants, Utils, StarknetWrapper, ScarbWrapper, ExternalServer}.

(** What [processExecuted] shows on the console. *)
Definition process_events (executed : ProcessResult) (logStatus : bool) : list Event :=
  (if negb (String.eqb (stdout executed) "")
   then [ConsoleLog (adaptLog (stdout executed))] else []) ++
  (if negb (String.eqb (stderr executed) "")
   then [ConsoleError (adaptLog (stderr executed))] else []) ++
  (if logStatus
   then [ConsoleLog (tab +:+ (if Z.eqb (statusCode executed) 0 then "Succeeded ✅" else "Failed")
                     +:+ nl)]
   else []).

(** What a compiler run leaves at the output path it was given. *)
Definition apply_output (p : string) (content : option string) (w : World) : World :=
  match content with
  | Some c => set_files (insert p c) w
  | None => w
  end.

(** What [setRuntimeNetwork] does once the name and its origin are fixed. *)
Definition resolves_from (args : TaskArguments) (config : Config) (w : World)
    (name origin : string) : Prop :=
  match networks config !! name with
  | Some c =>
      setRuntimeNetwork args config w =
      (Returned tt,
       record [SetProviderCall c; ConsoleLog ("Using network " +:+ name +:+ " at " +:+ url c)]
         (set_network name c w))
  | None =>
      setRuntimeNetwork args config w = (Thrown (UnknownNetworkError origin name), w)
  end.

Section Pipelines.
Variables (args : TaskArguments) (config : Config).

Definition cairo1_stage1 (file : string) : ProcessResult * option string :=
  compileCairoToSierra (cairo1_sierra_options args config file).

Definition cairo1_stage2 (file : string) : ProcessResult * option string :=
  compileSierraToCasm (cairo1_casm_options args config file).


(** What is expected of a compiler that reports success in stage 1: it wrote
    a JSON document other than [null] to the output path, and the ABI file
    is another file than that output. *)
Definition cairo1_loads (file : string) : Prop :=
  statusCode (cairo1_stage1 file).1 = 0 →
  cairo1_outputPath config file ≠ cairo1_abiOutput config file ∧
  ∃ content outputJson,
    (cairo1_stage1 file).2 = Some content ∧
    JSON_parse content = Some outputJson ∧
    outputJson ≠ JNull.

Definition cairo1_entry (file : string) : CacheEntry :=
  {| entry_output := cairo1_outputPath config file;
     entry_abi := cairo1_abiOutput config file;
     entry_cairoPath := None |}.

Definition deprecated_result (file : string) : ProcessResult :=
  (deprecatedCompile (deprecated_options args config file)).1.1.


Definition deprecated_entry (file : string) : CacheEntry :=
  {| entry_output := deprecated_outputPath config file;
     entry_abi := deprecated_abiPath config file;
     entry_cairoPath := Some (deprecated_cairoPath args config) |}.





End Pipelines.

End Summaries.


(** Whatever exists in [w] exists in [w']. *)
Definition keeps (w w' : World) : Prop :=
  ∀ p, exists_in w p = true → exists_in w' p = true.


(** ** What the further properties speak of *)

Section MoreSummaries.
Context `{NodeLibs, Constants, Utils, StarknetWrapper, ScarbWrapper, ExternalServer}.
Context `{Axios, VerificationConstants, Migrator}.

(** The manifests found under the traversable paths, in order. *)
Definition found_configs (traversablePaths : list string) (root configFileName : string)
  : list string :=
  List.concat
    ((λ traversablePath,
        List.filter (λ p, String.eqb (path_basename p) configFileName)
          (traverseFiles (adaptPath root traversablePath) configFileName))
       <$> traversablePaths).



(** A path as the verification reads it: adapted unless it is absolute. *)
Definition verification_path (root item : string) : string :=
  if path_isAbsolute item then item else adaptPath root item.

(** The part of a [FormData] body for the contract file at [index]. *)
Definition file_part (root sourcePrefix : string) (w : World) (index : nat) (item : string)
  : FormPart :=
  {| part_name := "file" +:+ pretty index;
     part_value := default "" (files w !! verification_path root item);
     part_filepath := Some (replace_prefix sourcePrefix (verification_path root item));
     part_contentType := Some "application/octet-stream" |}.




End MoreSummaries.

(** ** A small project to run the actions on *)

Module Demo.

Fixpoint drop_prefix (prefix s : string) : option string :=
  match prefix, s with
  | EmptyString, _ => Some s
  | String a prefix', String b s' =>
      if Ascii.eqb a b then drop_prefix prefix' s' else None
  | _, _ => None
  end.

Fixpoint last_segment (s acc : string) : string :=
  match s with
  | EmptyString => acc
  | String c rest =>
      if Ascii.eqb c "/" then last_segment rest "" else last_segment rest (acc +:+ String c "")
  end.

(** The part of [s] before its last [sep], if [sep] occurs. *)
Fixpoint before_last (sep : ascii) (s : string) : option string :=
  match s with
  | EmptyString => None
  | String c rest =>
      match before_last sep rest with
      | Some d => Some (String c d)
      | None => if Ascii.eqb c sep then Some "" else None
      end
  end.

Fixpoint strip_suffix (ext s : string) : string :=
  if String.eqb s ext then ""
  else match s with
       | EmptyString => ""
       | String c rest => String c (strip_suffix ext rest)
       end.

Definition extname (p : string) : string :=
  let base := last_segment p "" in
  match before_last "." base with
  | Some stem => default "" (drop_prefix stem base)
  | None => ""
  end.

Definition abi_json : json :=
  JArr [JObj [("type", JStr "function"); ("name", JStr "increase_balance")];
        JObj [("type", JStr "function"); ("name", JStr "get_balance")]].

Definition sierra_json : json :=
  JObj [("sierra_program", JArr [JStr "0x1"; JStr "0x2"]); ("abi", abi_json)].

Definition sierra_text : string := JSON_stringify sierra_json.

Definition report_json : json :=
  JObj [("version", JNum 1);
        ("contracts",
         JArr [JObj [("id", JStr "abc");
                     ("package_name", JStr "hello");
                     ("contract_name", JStr "Balance");
                     ("artifacts", JObj [("sierra", JStr "hello_Balance.sierra.json");
                                         ("casm", JStr "hello_Balance.casm.json")])]])].

Definition report_text : string := JSON_stringify report_json.

Definition good_manifest : ScarbConfig :=
  {| package_name := "hello";
     target := Some (Some [{| tc_name := None; tc_sierra := true; tc_casm := true |}]) |}.

Definition misnamed_manifest : ScarbConfig :=
  {| package_name := "world";
     target := Some (Some [{| tc_name := Some "other"; tc_sierra := true; tc_casm := true |}]) |}.

Definition libs : NodeLibs :=
  {| path_join := λ a b, a +:+ "/" +:+ default b (drop_prefix "/" b);
     path_basename := λ p, last_segment p "";
     path_basename_ext := λ p ext, strip_suffix ext (last_segment p "");
     path_extname := extname;
     path_dirname := λ p, default "." (before_last "/" p);
     path_isAbsolute := λ p, bool_decide (is_Some (drop_prefix "/" p));
     replace_prefix := λ prefix s, default s (drop_prefix prefix s);
     JSON_parse := λ s,
       if String.eqb s sierra_text then Some sierra_json
       else if String.eqb s report_text then Some report_json
       else None;
     toml_parse := λ s,
       if String.eqb s "hello" then Some good_manifest
       else if String.eqb s "world" then Some misnamed_manifest
       else None |}.

Definition constants : Constants :=
  {| ABI_SUFFIX := "_abi.json";
     CAIRO1_SIERRA_SUFFIX := ".json";
     CAIRO1_ASSEMBLY_SUFFIX := ".casm";
     DEFAULT_STARKNET_NETWORK := "alphaGoerli" |}.

Definition utils : Utils :=
  {| adaptLog := λ s, s;
     adaptPath := λ root p, if String.eqb p "" then root else p;
     traverseFiles := λ p glob,
       if String.eqb glob "*.cairo" then
         [p +:+ "/a.cairo"; p +:+ "/b.cairo"; p +:+ "/c.cairo"]
       else [p +:+ "/hello/Scarb.toml"; p +:+ "/world/Scarb.toml"; p +:+ "/again/Scarb.toml"];
     isStarknetDevnet := λ n,
       match n with
       | Some name => String.eqb name "integrated-devnet"
       | None => false
       end |}.

Definition succeeded : ProcessResult := {| statusCode := 0; stdout := ""; stderr := "" |}.
Definition failed : ProcessResult :=
  {| statusCode := 1; stdout := ""; stderr := "error: compilation failed" |}.

(** The compiler fails on [b.cairo]. *)
Definition wrapper : StarknetWrapper :=
  {| compileCairoToSierra := λ o,
       if String.eqb (c2s_path o) "/proj/contracts/b.cairo" then (failed, None)
       else (succeeded, Some sierra_text);
     compileSierraToCasm := λ o, (succeeded, Some "casm");
     deprecatedCompile := λ o,
       if String.eqb (dc_file o) "/proj/contracts/b.cairo" then (failed, None, None)
       else (succeeded, Some "program", Some "[]") |}.

(** Scarb reports success and writes no build report. *)
Definition scarb : ScarbWrapper :=
  {| scarb_build := λ packageConfigPath artifactDirPath, (succeeded, ∅) |}.

Definition server : ExternalServer := {| devnet_start_failure := None |}.

Definition goerli : NetworkConfig :=
  {| url := "https://alpha4.starknet.io"; verificationUrl := None; verifiedUrl := None |}.
Definition devnet_config : NetworkConfig :=
  {| url := "http://127.0.0.1:5050"; verificationUrl := None; verifiedUrl := None |}.

Definition config : Config :=
  {| root := "/proj";
     starknetSources := "/proj/contracts";
     starknetArtifacts := "/proj/starknet-artifacts";
     cairoPaths := None;
     starknet_cairo1BinDir := None;
     starknet_network := Some "integrated-devnet";
     networks := {[ "alphaGoerli" := goerli; "integrated-devnet" := devnet_config ]} |}.

(** The same project with no [starknet.network] in its configuration. *)
Definition config_without_network : Config :=
  {| root := "/proj";
     starknetSources := "/proj/contracts";
     starknetArtifacts := "/proj/starknet-artifacts";
     cairoPaths := None;
     starknet_cairo1BinDir := None;
     starknet_network := None;
     networks := {[ "alphaGoerli" := goerli; "integrated-devnet" := devnet_config ]} |}.

Definition no_args : TaskArguments :=
  {| paths := None; cairo1BinDir := None; replaceIds := false;
     allowedLibfuncsListName := None; allowedLibfuncsListFile := None;
     singleFile := false; addPythonicHints := false; cairoPath := None;
     accountContract := false; disableHintValidation := false;
     skipValidate := false; starknetNetwork := None |}.

Definition with_network (name : string) : TaskArguments :=
  {| paths := None; cairo1BinDir := None; replaceIds := false;
     allowedLibfuncsListName := None; allowedLibfuncsListFile := None;
     singleFile := false; addPythonicHints := false; cairoPath := None;
     accountContract := false; disableHintValidation := false;
     skipValidate := false; starknetNetwork := Some name |}.

Definition world : World :=
  {| files := {[ "/proj/contracts/a.cairo" := "a";
                 "/proj/contracts/b.cairo" := "b";
                 "/proj/contracts/c.cairo" := "c";
                 "/proj/contracts/hello/Scarb.toml" := "hello";
                 "/proj/contracts/world/Scarb.toml" := "world";
                 "/proj/contracts/again/Scarb.toml" := "hello" ]};
     dirs := {[ "/proj"; "/proj/contracts" ]};
     cache := ∅; savedCache := ∅; network := None; networkConfig := None;
     devnet := Idle; trace := [] |}.

(** The world once the integrated devnet is the runtime network. *)
Definition devnet_world : World := set_network "integrated-devnet" devnet_config world.

Definition a_cairo : string := "/proj/contracts/a.cairo".
Definition b_cairo : string := "/proj/contracts/b.cairo".
Definition hello_toml : string := "/proj/contracts/hello/Scarb.toml".
Definition world_toml : string := "/proj/contracts/world/Scarb.toml".
Definition again_toml : string := "/proj/contracts/again/Scarb.toml".

Definition passing_tests : RunSuperFunction := λ args fs, (Returned tt, fs).
Definition throwing_tests : RunSuperFunction :=
  λ args fs, (Thrown (ForeignError "test script crashed"), fs).

End Demo.

(** ** The small project, verified and migrated *)

Module DemoMore.
Import Demo.

Definition testnet : VerificationConstants := {| ALPHA_TESTNET := "alphaGoerli" |}.

(** Voyager knows the contract. *)
Definition verified_axios : Axios :=
  {| axios_get := λ url, Returned (JObj [("contract", JObj [("abi", JArr [])])]);
     axios_post := λ url form, None |}.

(** Voyager cannot be reached. *)
Definition unreachable_axios : Axios :=
  {| axios_get := λ url, Thrown (ForeignError "connect ECONNREFUSED");
     axios_post := λ url form, Some NoResponse |}.

(** Voyager does not know the contract and accepts the verification. *)
Definition accepting_axios : Axios :=
  {| axios_get := λ url, Returned (JObj [("contract", JArr [])]);
     axios_post := λ url form, None |}.

Definition migrator : Migrator :=
  {| migrateContract := λ given inplace, (failed, ∅) |}.

Definition failing_scarb : ScarbWrapper :=
  {| scarb_build := λ packageConfigPath artifactDirPath, (failed, ∅) |}.

Definition failing_server : ExternalServer :=
  {| devnet_start_failure := Some (ForeignError "integrated-devnet did not start") |}.

Definition voyager : NetworkConfig :=
  {| url := "https://alpha4.starknet.io";
     verificationUrl := Some "https://goerli.voyager.online/api/contract/";
     verifiedUrl := Some "https://goerli.voyager.online/contract/" |}.

Definition verifiable_config : Config :=
  {| root := "/proj";
     starknetSources := "/proj/contracts";
     starknetArtifacts := "/proj/starknet-artifacts";
     cairoPaths := None;
     starknet_cairo1BinDir := None;
     starknet_network := None;
     networks := {[ "alphaGoerli" := voyager ]} |}.

Definition verify_args : VerifyArguments :=
  {| va_address := "0x123";
     va_path := "/proj/contracts/a.cairo";
     va_compilerVersion := "0.11.0";
     va_license := None;
     va_accountContract := false;
     va_paths := Some ["/proj/contracts/c.cairo"];
     va_starknetNetwork := None |}.

Definition with_paths (given : list string) : TaskArguments :=
  {| paths := Some given; cairo1BinDir := None; replaceIds := false;
     allowedLibfuncsListName := None; allowedLibfuncsListFile := None;
     singleFile := false; addPythonicHints := false; cairoPath := None;
     accountContract := false; disableHintValidation := false;
     skipValidate := false; starknetNetwork := None |}.

Definition with_cairo_path (cliPath : string) : TaskArguments :=
  {| paths := None; cairo1BinDir := None; replaceIds := false;
     allowedLibfuncsListName := None; allowedLibfuncsListFile := None;
     singleFile := false; addPythonicHints := false; cairoPath := Some cliPath;
     accountContract := false; disableHintValidation := false;
     skipValidate := false; starknetNetwork := None |}.

Definition scarb_dev : string := "/proj/starknet-artifacts/contracts/hello/dev".

(** The world after Scarb built the package [hello]. *)
Definition built_world : World :=
  set_files (λ fs, {[ "/proj/starknet-artifacts/contracts/hello/dev/hello_Balance.sierra.json"
                        := sierra_text;
                      "/proj/starknet-artifacts/contracts/hello/dev/hello_Balance.casm.json"
                        := "casm" ]} ∪ fs) world.

Definition balance_entry : json :=
  JObj [("id", JStr "abc");
        ("package_name", JStr "hello");
        ("contract_name", JStr "Balance");
        ("artifacts", JObj [("sierra", JStr "hello_Balance.sierra.json");
                            ("casm", JStr "hello_Balance.casm.json")])].

Definition bare_entry : json :=
  JObj [("package_name", JStr "hello");
        ("contract_name", JStr "Bare");
        ("artifacts", JObj [])].

(** A manifest with a [package] table and no [target] table. *)
Definition bare_manifest : ScarbConfig := {| package_name := "bare"; target := None |}.

(** The libraries of the small project, where the text [bare] is that
    manifest. *)
Definition libs_with_bare : NodeLibs :=
  {| path_join := @path_join libs;
     path_basename := @path_basename libs;
     path_basename_ext := @path_basename_ext libs;
     path_extname := @path_extname libs;
     path_dirname := @path_dirname libs;
     path_isAbsolute := @path_isAbsolute libs;
     replace_prefix := @replace_prefix libs;
     JSON_parse := @JSON_parse libs;
     toml_parse := λ s,
       if String.eqb s "bare" then Some bare_manifest else @toml_parse libs s |}.



Definition c_cairo : string := "/proj/contracts/c.cairo".

(** A compiler that fails on [b.cairo] and, on [a.cairo], reports success
    without having written its output. *)
Definition careless_wrapper : StarknetWrapper :=
  {| compileCairoToSierra := λ o,
       if String.eqb (c2s_path o) b_cairo then (failed, None)
       else if String.eqb (c2s_path o) a_cairo then (succeeded, None)
       else (succeeded, Some sierra_text);
     compileSierraToCasm := @compileSierraToCasm wrapper;
     deprecatedCompile := @deprecatedCompile wrapper |}.

End DemoMore.

(** * Proofs *)

Section Laws.
Context `{NodeLibs, Constants, Utils, StarknetWrapper, ScarbWrapper, ExternalServer}.

Lemma bind_returned {A B} (m : Task A) (k : A → Task B) w a w' :
  m w = (Returned a, w') → bind m k w = k a w'.
Proof. intros Hm. unfold bind. by rewrite Hm. Qed.

Lemma bind_thrown {A B} (m : Task A) (k : A → Task B) w e w' :
  m w = (Thrown e, w') → bind m k w = (Thrown e, w').
Proof. intros Hm. unfold bind. by rewrite Hm. Qed.

Lemma bind_inv_returned {A B} (m : Task A) (k : A → Task B) w b w2 :
  bind m k w = (Returned b, w2) →
  ∃ a w1, m w = (Returned a, w1) ∧ k a w1 = (Returned b, w2).
Proof.
  unfold bind. destruct (m w) as [[a|e] w1]; [eauto | discriminate].
Qed.

Lemma record_record evs1 evs2 w :
  record evs2 (record evs1 w) = record (evs1 ++ evs2) w.
Proof. unfold record; simpl. by rewrite <- app_assoc. Qed.

(** ** Network resolution *)

Lemma getNetwork_spec name registry origin w :
  getNetwork name registry origin w =
  match registry !! name with
  | Some c => (Returned c, w)
  | None => (Thrown (UnknownNetworkError origin name), w)
  end.
Proof. unfold getNetwork. by destruct (registry !! name). Qed.

Ltac task_unfold :=
  cbv beta iota zeta delta
    [bind ret throw modify inspect emit console_log console_error try_catch].

Ltac resolve_name :=
  task_unfold; rewrite getNetwork_spec; unfold record;
  destruct (networks _ !! _); simpl; rewrite <- ?app_assoc; reflexivity.

Lemma setRuntimeNetwork_cases args config w :
  ∃ name origin, resolves_from args config w name origin.
Proof.
  unfold resolves_from, setRuntimeNetwork.
  destruct (truthy (starknetNetwork args)); [|destruct (truthy (starknet_network config))].
  - exists (default "" (starknetNetwork args)), "--starknet-network".
    resolve_name.
  - exists (default "" (starknet_network config)), "starknet.network in hardhat.config".
    resolve_name.
  - exists DEFAULT_STARKNET_NETWORK, "default settings".
    resolve_name.
Qed.

(** C7. The name is taken from the CLI argument when that is supplied
    (truthy), else from [starknet.network] of the configuration when that is
    supplied, else it is the built-in default; the runtime network becomes
    that name with its registry entry, and a name without a registry entry
    fails with an error that carries the origin of the name: the CLI flag,
    the configuration field, or the default settings. *)
Theorem network_resolution_precedence args config w :
  (truthy (starknetNetwork args) = true →
   resolves_from args config w (default "" (starknetNetwork args)) "--starknet-network") ∧
  (truthy (starknetNetwork args) = false → truthy (starknet_network config) = true →
   resolves_from args config w (default "" (starknet_network config))
     "starknet.network in hardhat.config") ∧
  (truthy (starknetNetwork args) = false → truthy (starknet_network config) = false →
   resolves_from args config w DEFAULT_STARKNET_NETWORK "default settings").
Proof.
  unfold resolves_from, setRuntimeNetwork.
  repeat split.
  - intros ->. resolve_name.
  - intros -> ->. resolve_name.
  - intros -> ->. resolve_name.
Qed.

Lemma setRuntimeNetwork_returned args config w w' :
  setRuntimeNetwork args config w = (Returned tt, w') →
  ∃ name c line,
    w' = record [SetProviderCall c; ConsoleLog line] (set_network name c w).
Proof.
  destruct (setRuntimeNetwork_cases args config w) as (name & origin & Hr).
  unfold resolves_from in Hr. destruct (networks config !! name) as [c|].
  - rewrite Hr. intros [= <-]. eauto.
  - rewrite Hr. discriminate.
Qed.

(** ** The supervisor *)

Lemma runWithDevnet_passthrough (fn : Task unit) w :
  isStarknetDevnet (network w) = false → runWithDevnet fn w = fn w.
Proof.
  intros Hnet. unfold runWithDevnet, bind, inspect. rewrite Hnet. simpl.
  by destruct (fn w) as [[[]|e] w'].
Qed.

(** C8. When the network that was resolved is not the integrated devnet,
    the test action and the run action are the unit of work called directly
    in the world that network resolution and the cache flush left: nothing
    is asked of the devnet and its state stays as it was. *)
Theorem supervisor_is_passthrough_off_devnet args config runSuper w w1 :
  (setRuntimeNetwork args config;; handleCache) w = (Returned tt, w1) →
  isStarknetDevnet (network w1) = false →
  starknetTestAction args config runSuper w = call_runSuper runSuper args w1 ∧
  (truthy (starknetNetwork args) = false →
   starknetRunAction args config runSuper w = call_runSuper runSuper args w1) ∧
  trace (call_runSuper runSuper args w1).2 = trace w1 ++ [RunSuperCall args] ∧
  devnet_events (trace (call_runSuper runSuper args w1).2) = devnet_events (trace w) ∧
  devnet (call_runSuper runSuper args w1).2 = devnet w.
Proof.
  intros Hpre Hnet.
  assert (Hrun : (setRuntimeNetwork args config;; handleCache;;
                  runWithDevnet (call_runSuper runSuper args)) w =
                 call_runSuper runSuper args w1).
  { apply bind_inv_returned in Hpre as ([] & w0 & Hset & Hcache).
    rewrite (bind_returned _ _ _ _ _ Hset), (bind_returned _ _ _ _ _ Hcache).
    by apply runWithDevnet_passthrough. }
  split; [exact Hrun|]. split.
  { intros Hcli. unfold starknetRunAction. rewrite Hcli. exact Hrun. }
  apply bind_inv_returned in Hpre as ([] & w0 & Hset & Hcache).
  apply setRuntimeNetwork_returned in Hset as (name & c & line & ->).
  unfold handleCache, bind, emit, modify in Hcache. simpl in Hcache.
  injection Hcache as <-.
  unfold call_runSuper, devnet_events; simpl.
  repeat split. rewrite !List.filter_app. simpl. by rewrite !app_nil_r.
Qed.

(** C1, as the code has it. On the integrated devnet, with a devnet that
    starts: when the unit of work returns, [stop()] runs exactly once, after
    the unit of work, and the devnet is idle again; when the unit of work
    throws, its error reaches the caller, [stop()] does not run and the
    devnet is left running. *)
Theorem devnet_stopped_after_returning_work args runSuper w :
  isStarknetDevnet (network w) = true →
  devnet_start_failure = None →
  let r := runWithDevnet (call_runSuper runSuper args) w in
  match (runSuper args (files w)).1 with
  | Returned _ =>
      r.1 = Returned tt ∧
      trace r.2 = trace w ++ [DevnetCreated; DevnetStartCall; RunSuperCall args; DevnetStopCall] ∧
      stop_calls (trace r.2) = S (stop_calls (trace w)) ∧
      devnet r.2 = Idle
  | Thrown e =>
      r.1 = Thrown e ∧
      trace r.2 = trace w ++ [DevnetCreated; DevnetStartCall; RunSuperCall args] ∧
      stop_calls (trace r.2) = stop_calls (trace w) ∧
      devnet r.2 = Running
  end.
Proof.
  intros Hnet Hstart. unfold runWithDevnet, bind, inspect. rewrite Hnet. simpl.
  unfold devnet_start, createIntegratedDevnet, bind, emit, modify. simpl.
  rewrite Hstart. simpl. unfold call_runSuper. simpl.
  destruct (runSuper args (files w)) as [[[]|e] fs]; simpl.
  - unfold stop_calls. rewrite <- !app_assoc. simpl.
    repeat split. rewrite List.filter_app, length_app. simpl. lia.
  - unfold stop_calls. rewrite <- !app_assoc. simpl.
    repeat split. rewrite List.filter_app, length_app. simpl. lia.
Qed.

(** C10. When [--starknet-network] is supplied (truthy), the run action
    throws the error that says the flag has no effect with "hardhat run",
    and the world is as it was: no network was resolved, the cache was not
    touched and the unit of work did not run. *)
Theorem run_action_rejects_network_flag args config runSuper w :
  truthy (starknetNetwork args) = true →
  starknetRunAction args config runSuper w =
  (Thrown (StarknetPluginError run_flag_message), w).
Proof. intros Hcli. unfold starknetRunAction. by rewrite Hcli. Qed.

(** ** Helpers as equations *)

Lemma record_nil w : record [] w = w.
Proof. destruct w. unfold record; simpl. by rewrite app_nil_r. Qed.

Lemma initializeFile_eq p w :
  initializeFile p w = (Returned tt, set_files (insert p "") w).
Proof.
  unfold initializeFile, existsSync, unlinkSync, open_w_close. task_unfold.
  destruct (exists_in w p); [|done].
  unfold set_files; simpl. by rewrite insert_delete_eq.
Qed.

Lemma processExecuted_eq executed logStatus w :
  processExecuted executed logStatus w =
  (Returned (status_bit executed), record (process_events executed logStatus) w).
Proof.
  unfold processExecuted, process_events, status_bit. task_unfold.
  destruct (negb (String.eqb (stdout executed) ""));
    destruct (negb (String.eqb (stderr executed) ""));
    destruct logStatus; simpl;
    rewrite ?record_record, ?record_nil; reflexivity.
Qed.

(** ** Manifest validation *)

Lemma loadScarbTomlFromPath_pure tomlPath validate w :
  (loadScarbTomlFromPath tomlPath validate w).2 = w.
Proof.
  unfold loadScarbTomlFromPath, readFileSync. task_unfold.
  destruct (files w !! tomlPath); [|done].
  destruct (toml_parse _); [|done].
  destruct validate; [|done].
  destruct (target _); [|done]. simpl.
  destruct (Nat.eqb _ 0); [done|].
  destruct (head _); [|done].
  by destruct (negb _ || negb _).
Qed.



(** ** A missing build report *)

(** C3, as the code has it. When Scarb succeeds for a manifest and the
    build report is not there, the loop over the manifests ends with the
    error that names the package and the expected path: the remaining
    manifests are not processed and no failure count is reported. *)
Theorem missing_build_report_aborts_the_batch
    args config packageConfigPath rest cfg statusCode0 w :
  let artifactDirPath := build_artifactDirPath config packageConfigPath in
  let report := report_path (path_join artifactDirPath "dev") (package_name cfg) in
  let build := scarb_build packageConfigPath artifactDirPath in
  (loadScarbTomlFromPath packageConfigPath (negb (skipValidate args)) w).1 = Returned cfg →
  statusCode build.1 = 0 →
  files w !! report = None →
  build.2 !! report = None →
  report ∉ dirs w →
  ∃ w1,
    for_of (packageConfigPath :: rest) (buildPackage args config) statusCode0 w =
    (Thrown (StarknetPluginError
               ("Error in building " +:+ package_name cfg +:+ ", could not find " +:+ report)),
     w1) ∧
    trace w1 =
    trace w ++
    ConsoleLog ("Building package " +:+ package_name cfg +:+ " from " +:+
                path_dirname packageConfigPath)
    :: ScarbBuildCall packageConfigPath artifactDirPath
    :: process_events build.1 true.
Proof.
  intros artifactDirPath report build Hload Hstatus Hfile Hbuilt Hdir.
  assert (Hload' : loadScarbTomlFromPath packageConfigPath (negb (skipValidate args)) w
                   = (Returned cfg, w)).
  { pose proof (loadScarbTomlFromPath_pure packageConfigPath (negb (skipValidate args)) w).
    destruct (loadScarbTomlFromPath _ _ w); simpl in *. congruence. }
  eexists. simpl. unfold buildPackage.
  unfold bind at 1. unfold bind at 1. unfold try_catch, bind at 1.
  rewrite Hload'. unfold ret at 1.
  unfold call_scarb_build. task_unfold. rewrite processExecuted_eq.
  fold artifactDirPath. fold build. rewrite Hstatus. simpl.
  unfold loadScarbMainArtifact, existsSync. task_unfold.
  fold report.
  assert (exists_in (record (process_events build.1 true)
            (set_files (λ fs, build.2 ∪ fs)
               (record [ScarbBuildCall packageConfigPath artifactDirPath]
                  (record [ConsoleLog ("Building package " +:+ package_name cfg +:+ " from " +:+
                                         path_dirname packageConfigPath)] w)))) report = false)
    as ->.
  { unfold exists_in; simpl. apply orb_false_iff. split.
    - apply bool_decide_eq_false. rewrite lookup_union, Hfile, Hbuilt. simpl.
      by intros [? ?].
    - by apply bool_decide_eq_false. }
  simpl. split; [reflexivity|].
  unfold record, set_files; simpl. by rewrite <- !app_assoc.
Qed.

(** ** ABI extraction *)

Lemma get_property_eq key v w :
  v ≠ JNull → get_property key v w = (Returned (property key v), w).
Proof. by destruct v. Qed.

Ltac step :=
  erewrite bind_returned by
    first [ apply initializeFile_eq | apply processExecuted_eq | reflexivity ];
  cbv beta.

Lemma copyAbi_eq sierraPath abiOutput content outputJson w :
  sierraPath ≠ abiOutput →
  files w !! sierraPath = Some content →
  JSON_parse content = Some outputJson →
  outputJson ≠ JNull →
  copyAbi sierraPath abiOutput w =
  (Returned tt,
   set_files (insert abiOutput (stringify_operand (property "abi" outputJson) +:+ nl))
     (set_files (insert abiOutput "") w)).
Proof.
  intros Hne Hfile Hparse Hnull. unfold copyAbi. step.
  erewrite bind_returned; cycle 1.
  { unfold readFileSync, set_files; simpl. by rewrite lookup_insert_ne, Hfile. }
  erewrite bind_returned; cycle 1.
  { unfold parse_json. by rewrite Hparse. }
  erewrite bind_returned by (by apply get_property_eq).
  reflexivity.
Qed.

Lemma contains_newline_app s t :
  contains_newline (s +:+ t) = contains_newline s || contains_newline t.
Proof. induction s as [|c s IH]; simpl; [done|]. by rewrite IH, orb_assoc. Qed.

Lemma quote_char_single_line c : contains_newline (quote_char c) = false.
Proof. by destruct c as [[] [] [] [] [] [] [] []]. Qed.

Lemma quote_single_line s : contains_newline (quote s) = false.
Proof.
  unfold quote. rewrite !contains_newline_app. simpl.
  induction s as [|c s IH]; simpl; [done|].
  by rewrite contains_newline_app, quote_char_single_line.
Qed.

Lemma pretty_N_char_single_line n s :
  contains_newline (String (pretty_N_char n) s) = contains_newline s.
Proof.
  destruct n as [|p]; [done|].
  do 4 (try destruct p as [p|p|]); reflexivity.
Qed.

Lemma pretty_N_go_single_line n s :
  contains_newline s = false → contains_newline (pretty_N_go n s) = false.
Proof.
  revert s. induction (N.lt_wf_0 n) as [n _ IH]. intros s Hs.
  destruct (decide (n = 0%N)) as [->|Hn]; [by rewrite pretty_N_go_0|].
  rewrite pretty_N_go_step by lia.
  apply IH.
  - apply N.div_lt; lia.
  - by rewrite pretty_N_char_single_line.
Qed.

Lemma pretty_N_single_line (n : N) : contains_newline (pretty n) = false.
Proof.
  unfold pretty, pretty_N. destruct (decide (n = 0%N)); [done|].
  by apply pretty_N_go_single_line.
Qed.

Lemma pretty_Z_single_line (z : Z) : contains_newline (pretty z) = false.
Proof.
  destruct z as [|p|p].
  - done.
  - apply (pretty_N_single_line (Npos p)).
  - change (pretty (Zneg p)) with ("-" +:+ pretty (Npos p)).
    rewrite contains_newline_app. apply (pretty_N_single_line (Npos p)).
Qed.

Lemma join_single_line sep items :
  contains_newline sep = false →
  Forall (λ s, contains_newline s = false) items →
  contains_newline (join sep items) = false.
Proof.
  intros Hsep Hall. induction Hall as [|x l Hx Hl IH]; [done|].
  destruct l as [|y l]; [done|].
  change (join sep (x :: y :: l)) with (x +:+ sep +:+ join sep (y :: l)).
  by rewrite !contains_newline_app, Hx, Hsep, IH.
Qed.

(** Induction over a JSON value and the values inside it. *)
Lemma json_nested_ind (P : json → Prop) :
  P JNull → (∀ b, P (JBool b)) → (∀ z, P (JNum z)) → (∀ s, P (JStr s)) →
  (∀ items, Forall P items → P (JArr items)) →
  (∀ fields, Forall (λ kv, P (snd kv)) fields → P (JObj fields)) →
  ∀ v, P v.
Proof.
  intros Hnull Hbool Hnum Hstr Harr Hobj.
  fix IH 1. intros [ |b|z|s|items|fields].
  - exact Hnull.
  - apply Hbool.
  - apply Hnum.
  - apply Hstr.
  - apply Harr. induction items as [|x items IHitems]; constructor.
    + apply IH.
    + exact IHitems.
  - apply Hobj. induction fields as [|[k x] fields IHfields]; constructor.
    + apply IH.
    + exact IHfields.
Qed.

Lemma JSON_stringify_single_line v : contains_newline (JSON_stringify v) = false.
Proof.
  induction v as [ |b|z|s|items IH|fields IH] using json_nested_ind.
  - done.
  - by destruct b.
  - apply pretty_Z_single_line.
  - apply quote_single_line.
  - simpl. rewrite !contains_newline_app. simpl.
    rewrite join_single_line; [done..|].
    by apply Forall_fmap.
  - simpl. rewrite !contains_newline_app. simpl.
    rewrite join_single_line; [done..|].
    apply Forall_fmap. eapply Forall_impl; [exact IH|].
    intros [k x] Hx. unfold compose. cbn [fst snd] in *.
    by rewrite !contains_newline_app, quote_single_line, Hx.
Qed.

(** C9, as the code has it. ABI extraction writes the ABI section of the
    intermediate-representation file as a standalone file holding the
    compact serialisation of [JSON.stringify] with no indentation, which is
    a single line, followed by one newline; no other file changes. *)
Theorem abi_written_on_one_line_with_newline
    sierraPath abiOutput content outputJson abi w :
  sierraPath ≠ abiOutput →
  files w !! sierraPath = Some content →
  JSON_parse content = Some outputJson →
  property "abi" outputJson = Some abi →
  let r := copyAbi sierraPath abiOutput w in
  r.1 = Returned tt ∧
  files r.2 !! abiOutput = Some (JSON_stringify abi +:+ nl) ∧
  contains_newline (JSON_stringify abi) = false ∧
  (∀ p, p ≠ abiOutput → files r.2 !! p = files w !! p) ∧
  trace r.2 = trace w.
Proof.
  intros Hne Hfile Hparse Habi r. subst r.
  rewrite (copyAbi_eq _ _ _ _ _ Hne Hfile Hparse) by (by destruct outputJson).
  rewrite Habi. simpl. repeat split.
  - by rewrite lookup_insert_eq.
  - apply JSON_stringify_single_line.
  - intros p Hp. by rewrite !lookup_insert_ne.
Qed.

(** ** One file in the two-stage pipeline *)

Lemma write_output_eq p content w :
  write_output p content w = (Returned tt, apply_output p content w).
Proof. by destruct content. Qed.

Lemma call_compileCairoToSierra_eq o w :
  call_compileCairoToSierra o w =
  (Returned (compileCairoToSierra o).1,
   apply_output (c2s_output o) (compileCairoToSierra o).2 (record [CairoToSierraCall o] w)).
Proof.
  unfold call_compileCairoToSierra. step.
  erewrite bind_returned by apply write_output_eq. reflexivity.
Qed.

Lemma call_compileSierraToCasm_eq o w :
  call_compileSierraToCasm o w =
  (Returned (compileSierraToCasm o).1,
   apply_output (s2c_output o) (compileSierraToCasm o).2 (record [SierraToCasmCall o] w)).
Proof.
  unfold call_compileSierraToCasm. step.
  erewrite bind_returned by apply write_output_eq. reflexivity.
Qed.

Lemma call_deprecatedCompile_eq o w :
  call_deprecatedCompile o w =
  (Returned (deprecatedCompile o).1.1,
   apply_output (dc_abi o) (deprecatedCompile o).2
     (apply_output (dc_output o) (deprecatedCompile o).1.2
        (record [DeprecatedCompileCall o] w))).
Proof.
  unfold call_deprecatedCompile. step.
  erewrite bind_returned by apply write_output_eq.
  erewrite bind_returned by apply write_output_eq. reflexivity.
Qed.

Lemma updateCache_eq file output abi cairoPath w :
  updateCache file output abi cairoPath w =
  (Returned tt,
   let e := {| entry_output := output; entry_abi := abi; entry_cairoPath := cairoPath |} in
   set_cache (insert file e) (record [UpdateCacheCall file e] w)).
Proof. reflexivity. Qed.

Ltac run :=
  erewrite bind_returned by
    first [ apply initializeFile_eq | apply processExecuted_eq
          | apply call_compileCairoToSierra_eq | apply call_compileSierraToCasm_eq
          | apply call_deprecatedCompile_eq | apply updateCache_eq
          | reflexivity ];
  cbv beta.

Lemma apply_output_files p content w q :
  q ≠ p → files (apply_output p content w) !! q = files w !! q.
Proof. intros Hq. destruct content; simpl; [|done]. by rewrite lookup_insert_ne. Qed.

Lemma apply_output_trace p content w : trace (apply_output p content w) = trace w.
Proof. by destruct content. Qed.

Lemma apply_output_cache p content w : cache (apply_output p content w) = cache w.
Proof. by destruct content. Qed.

Lemma trace_record evs w : trace (record evs w) = trace w ++ evs.
Proof. reflexivity. Qed.

Lemma trace_set_files f w : trace (set_files f w) = trace w.
Proof. reflexivity. Qed.

Lemma trace_set_dirs f w : trace (set_dirs f w) = trace w.
Proof. reflexivity. Qed.

Lemma trace_set_cache f w : trace (set_cache f w) = trace w.
Proof. reflexivity. Qed.

Lemma trace_set_savedCache c w : trace (set_savedCache c w) = trace w.
Proof. reflexivity. Qed.

Lemma cache_record evs w : cache (record evs w) = cache w.
Proof. reflexivity. Qed.

Lemma cache_set_files f w : cache (set_files f w) = cache w.
Proof. reflexivity. Qed.

Lemma cache_set_dirs f w : cache (set_dirs f w) = cache w.
Proof. reflexivity. Qed.

Lemma cache_set_cache f w : cache (set_cache f w) = f (cache w).
Proof. reflexivity. Qed.

Create Rewrite HintDb world.
#[local] Hint Rewrite apply_output_trace trace_record trace_set_files trace_set_dirs
  trace_set_cache trace_set_savedCache apply_output_cache cache_record cache_set_files
  cache_set_dirs cache_set_cache : world.

(** ** What exists keeps existing *)

Lemma keeps_refl w : keeps w w.
Proof. by intros p. Qed.

Lemma keeps_trans w1 w2 w3 : keeps w1 w2 → keeps w2 w3 → keeps w1 w3.
Proof. intros H12 H23 p Hp. by apply H23, H12. Qed.

Lemma keeps_record evs w : keeps w (record evs w).
Proof. by intros p. Qed.

Lemma keeps_set_cache f w : keeps w (set_cache f w).
Proof. by intros p. Qed.

Lemma keeps_set_savedCache c w : keeps w (set_savedCache c w).
Proof. by intros p. Qed.

Lemma keeps_insert q content w : keeps w (set_files (insert q content) w).
Proof.
  intros p. unfold exists_in; simpl. rewrite !orb_true_iff, !bool_decide_eq_true.
  intros [Hfile|Hdir]; [left|by right].
  destruct (decide (q = p)) as [->|Hne].
  - by rewrite lookup_insert_eq.
  - by rewrite lookup_insert_ne.
Qed.

Lemma keeps_mkdir q w : keeps w (set_dirs (λ d, {[q]} ∪ d) w).
Proof.
  intros p. unfold exists_in; simpl. rewrite !orb_true_iff, !bool_decide_eq_true.
  intros [Hfile|Hdir]; [by left|right]. set_solver.
Qed.

Lemma keeps_apply_output q content w : keeps w (apply_output q content w).
Proof. destruct content; [apply keeps_insert|apply keeps_refl]. Qed.

Create HintDb keeps.
#[local] Hint Resolve keeps_record keeps_set_cache keeps_set_savedCache
  keeps_insert keeps_mkdir keeps_apply_output : keeps.

(** Peels the world updates off one at a time. *)
Ltac keeps_all :=
  repeat first [ apply keeps_refl
               | eapply keeps_trans; [|solve [auto 1 with keeps]] ].

Lemma compileCairo1File_failure args config file statusCode0 w :
  statusCode (cairo1_stage1 args config file).1 ≠ 0 →
  let r := compileCairo1File args config file statusCode0 w in
  r.1 = Returned (S statusCode0) ∧
  trace r.2 =
    trace w ++
    ConsoleLog ("Compiling " +:+ file)
    :: CairoToSierraCall (cairo1_sierra_options args config file)
    :: process_events (cairo1_stage1 args config file).1 true ∧
  (∀ p, p ≠ cairo1_outputPath config file → files r.2 !! p = files w !! p) ∧
  cache r.2 = cache w ∧
  (∀ p, exists_in w p = true → exists_in r.2 p = true).
Proof.
  intros Hfail r. subst r. unfold compileCairo1File.
  do 5 run. fold (cairo1_stage1 args config file).
  apply Z.eqb_neq in Hfail. rewrite Hfail. cbn [negb]. unfold ret. cbn [fst snd].
  unfold status_bit. rewrite Hfail. repeat split.
  - by rewrite Nat.add_1_r.
  - autorewrite with world. by rewrite <- !app_assoc.
  - intros p Hp. cbn [files record]. rewrite apply_output_files by done.
    cbn. by rewrite lookup_insert_ne.
  - by autorewrite with world.
  - fold (keeps w). keeps_all.
Qed.

(** C6. When stage 1 fails for a file, the file's turn ends there with one
    more failure counted: the compiler from the intermediate representation
    to assembly is not invoked, and no file other than the stage-1 output
    file is created or changed, so neither the ABI file nor the assembly
    file is. *)
Theorem stage1_failure_skips_abi_and_casm args config file statusCode0 w :
  statusCode (cairo1_stage1 args config file).1 ≠ 0 →
  let r := compileCairo1File args config file statusCode0 w in
  r.1 = Returned (S statusCode0) ∧
  trace r.2 =
    trace w ++
    ConsoleLog ("Compiling " +:+ file)
    :: CairoToSierraCall (cairo1_sierra_options args config file)
    :: process_events (cairo1_stage1 args config file).1 true ∧
  (∀ p, p ≠ cairo1_outputPath config file → files r.2 !! p = files w !! p) ∧
  cache r.2 = cache w.
Proof.
  intros Hfail r.
  destruct (compileCairo1File_failure args config file statusCode0 w Hfail)
    as (Hout & Htrace & Hfiles & Hcache & _).
  auto.
Qed.

Lemma compileCairo1File_success args config file statusCode0 w :
  statusCode (cairo1_stage1 args config file).1 = 0 →
  cairo1_loads args config file →
  ∃ w',
    compileCairo1File args config file statusCode0 w =
    (Returned (statusCode0 + status_bit (cairo1_stage2 args config file).1)%nat, w') ∧
    trace w' =
      trace w ++
      (ConsoleLog ("Compiling " +:+ file)
       :: CairoToSierraCall (cairo1_sierra_options args config file)
       :: process_events (cairo1_stage1 args config file).1 true) ++
      (SierraToCasmCall (cairo1_casm_options args config file)
       :: process_events (cairo1_stage2 args config file).1 true) ++
      [UpdateCacheCall file (cairo1_entry config file)] ∧
    cache w' = <[file := cairo1_entry config file]> (cache w) ∧
    keeps w w'.
Proof.
  intros Hok Hloads.
  destruct (Hloads Hok) as (Hpaths & content & outputJson & Hwritten & Hparse & Hnull).
  eexists. split.
  { unfold compileCairo1File. do 5 run.
    fold (cairo1_stage1 args config file). rewrite Hok. cbn [Z.eqb negb].
    erewrite bind_returned; cycle 1.
    { eapply copyAbi_eq; [exact Hpaths| |exact Hparse|exact Hnull].
      rewrite Hwritten. simpl. by rewrite lookup_insert_eq. }
    do 4 run. unfold status_bit at 1. rewrite Hok. cbn [Z.eqb].
    rewrite Nat.add_0_r. reflexivity. }
  rewrite Hwritten. fold (cairo1_stage2 args config file).
  split; [|split].
  - autorewrite with world. by rewrite <- !app_assoc.
  - by autorewrite with world.
  - keeps_all.
Qed.

(** ** One file in the legacy pipeline *)

Lemma compileDeprecatedFile_spec args config file statusCode0 w :
  ∃ w',
    compileDeprecatedFile args config file statusCode0 w =
    (Returned (statusCode0 + status_bit (deprecated_result args config file))%nat, w') ∧
    trace w' =
      trace w ++
      [ConsoleLog ("Compiling " +:+ file);
       DeprecatedCompileCall (deprecated_options args config file);
       UpdateCacheCall file (deprecated_entry args config file)] ++
      process_events (deprecated_result args config file) true ∧
    cache w' = <[file := deprecated_entry args config file]> (cache w) ∧
    keeps w w'.
Proof.
  eexists. split.
  { unfold compileDeprecatedFile. do 7 run. reflexivity. }
  split; [|split].
  - autorewrite with world. by rewrite <- !app_assoc.
  - by autorewrite with world.
  - keeps_all.
Qed.

(** ** Loops that count failures *)











Lemma checkSourceExists_eq sourcePath w :
  exists_in w sourcePath = true → checkSourceExists sourcePath w = (Returned tt, w).
Proof. intros Hex. unfold checkSourceExists, existsSync. task_unfold. by rewrite Hex. Qed.


(** ** The cache *)

Lemma copyAbi_throws sierraPath abiOutput w :
  sierraPath ≠ abiOutput →
  (files w !! sierraPath = None ∨
   ∃ content, files w !! sierraPath = Some content ∧
              (JSON_parse content = None ∨ JSON_parse content = Some JNull)) →
  ∃ e, copyAbi sierraPath abiOutput w = (Thrown e, set_files (insert abiOutput "") w).
Proof.
  intros Hne Hcases. unfold copyAbi. step.
  unfold readFileSync, parse_json. task_unfold. cbn [files set_files].
  rewrite lookup_insert_ne by done.
  destruct Hcases as [-> | (content & -> & [Hparse|Hparse])]; rewrite ?Hparse; eauto.
Qed.

(** Stage 1 reports success and what is at the output path is not a JSON
    document, or is [null]: ABI extraction throws, and the file's turn ends
    before stage 2 and before the cache is updated. *)
Lemma compileCairo1File_unloadable args config file statusCode0 w :
  statusCode (cairo1_stage1 args config file).1 = 0 →
  cairo1_outputPath config file ≠ cairo1_abiOutput config file →
  JSON_parse (default "" (cairo1_stage1 args config file).2) = None ∨
  JSON_parse (default "" (cairo1_stage1 args config file).2) = Some JNull →
  ∃ e w',
    compileCairo1File args config file statusCode0 w = (Thrown e, w') ∧
    cache w' = cache w.
Proof.
  intros Hok Hpaths Hparse. unfold compileCairo1File. do 5 run.
  fold (cairo1_stage1 args config file). rewrite Hok. cbn [Z.eqb negb].
  match goal with
  | |- ∃ e w', bind _ _ ?W = _ ∧ _ =>
      destruct (copyAbi_throws (cairo1_outputPath config file)
                  (cairo1_abiOutput config file) W Hpaths) as [e He]
  end.
  - right. exists (default "" (cairo1_stage1 args config file).2).
    split; [|exact Hparse].
    destruct (cairo1_stage1 args config file).2; simpl; by rewrite lookup_insert_eq.
  - eexists _, _. split; [apply bind_thrown; exact He|].
    by autorewrite with world.
Qed.

(** *** Computations that leave the cache alone *)

Lemma leaves_cache_ret {A} (a : A) : leaves_cache (ret a).
Proof. by intros w. Qed.

Lemma leaves_cache_throw {A} e : leaves_cache (@throw A e).
Proof. by intros w. Qed.

Lemma leaves_cache_bind {A B} (m : Task A) (k : A → Task B) :
  leaves_cache m → (∀ a, leaves_cache (k a)) → leaves_cache (bind m k).
Proof.
  intros Hm Hk w. unfold bind. destruct (Hm w) as [Hc Ht].
  destruct (m w) as [[a|e] w1]; simpl in *; [|done].
  destruct (Hk a w1) as [Hc' Ht']. by rewrite Hc', Ht'.
Qed.

Lemma leaves_cache_try_catch {A} (body : Task A) handler :
  leaves_cache body → (∀ e, leaves_cache (handler e)) →
  leaves_cache (try_catch body handler).
Proof.
  intros Hm Hk w. unfold try_catch. destruct (Hm w) as [Hc Ht].
  destruct (body w) as [[a|e] w1]; simpl in *; [done|].
  destruct (Hk e w1) as [Hc' Ht']. by rewrite Hc', Ht'.
Qed.

Lemma leaves_cache_for_of {A B} (items : list A) (body : A → B → Task B) acc :
  (∀ x b, leaves_cache (body x b)) → leaves_cache (for_of items body acc).
Proof.
  intros Hbody. revert acc. induction items as [|x items IH]; intros acc; simpl.
  - apply leaves_cache_ret.
  - apply leaves_cache_bind; [apply Hbody|exact IH].
Qed.

Lemma leaves_cache_inspect {A} (f : World → A) : leaves_cache (inspect f).
Proof. by intros w. Qed.

Lemma leaves_cache_files f : leaves_cache (modify (set_files f)).
Proof. by intros w. Qed.

Lemma leaves_cache_dirs f : leaves_cache (modify (set_dirs f)).
Proof. by intros w. Qed.

Lemma leaves_cache_emit e : is_cache_update e = false → leaves_cache (emit e).
Proof.
  intros He w. split; [done|]. unfold emit, modify, cache_updates; simpl.
  rewrite List.filter_app. simpl. rewrite He. by rewrite app_nil_r.
Qed.

Lemma leaves_cache_readFileSync p : leaves_cache (readFileSync p).
Proof. intros w. unfold readFileSync. by destruct (files w !! p). Qed.

Create HintDb leaves_cache.

(** Goes through a computation written with the operations above. *)
Ltac leaves_cache_all :=
  repeat first
    [ apply leaves_cache_ret
    | apply leaves_cache_throw
    | apply leaves_cache_inspect
    | apply leaves_cache_files
    | apply leaves_cache_dirs
    | apply leaves_cache_readFileSync
    | apply leaves_cache_emit; reflexivity
    | solve [auto 1 with leaves_cache]
    | apply leaves_cache_bind; [|intros ?]
    | apply leaves_cache_try_catch; [|intros ?]
    | apply leaves_cache_for_of; intros ? ?
    | progress cbv zeta
    | match goal with
      | |- leaves_cache (if ?b then _ else _) => destruct b
      | |- leaves_cache (match ?x with _ => _ end) => destruct x
      end ].

Lemma leaves_cache_initializeFile filePath : leaves_cache (initializeFile filePath).
Proof. unfold initializeFile, existsSync, unlinkSync, open_w_close. leaves_cache_all. Qed.

Lemma leaves_cache_processExecuted executed logStatus :
  leaves_cache (processExecuted executed logStatus).
Proof. unfold processExecuted, console_log, console_error. leaves_cache_all. Qed.

Lemma leaves_cache_checkSourceExists sourcePath : leaves_cache (checkSourceExists sourcePath).
Proof. unfold checkSourceExists, existsSync. leaves_cache_all. Qed.

Lemma leaves_cache_get_property key v : leaves_cache (get_property key v).
Proof. unfold get_property. leaves_cache_all. Qed.

Lemma leaves_cache_parse_json content : leaves_cache (parse_json content).
Proof. unfold parse_json. leaves_cache_all. Qed.

Lemma leaves_cache_copyFileSync src dst : leaves_cache (copyFileSync src dst).
Proof. unfold copyFileSync, writeFileSync. leaves_cache_all. Qed.

#[local] Hint Resolve leaves_cache_initializeFile leaves_cache_processExecuted
  leaves_cache_checkSourceExists leaves_cache_get_property leaves_cache_parse_json
  leaves_cache_copyFileSync : leaves_cache.

Lemma leaves_cache_get_name key entry : leaves_cache (get_name key entry).
Proof. unfold get_name. leaves_cache_all. Qed.

Lemma leaves_cache_get_artifact key artifacts : leaves_cache (get_artifact key artifacts).
Proof. unfold get_artifact, get_property_opt. leaves_cache_all. Qed.

Lemma leaves_cache_copyAbi sierraPath abiOutput : leaves_cache (copyAbi sierraPath abiOutput).
Proof. unfold copyAbi, writeFileSync. leaves_cache_all. Qed.

Lemma leaves_cache_loadScarbTomlFromPath tomlPath validate :
  leaves_cache (loadScarbTomlFromPath tomlPath validate).
Proof. unfold loadScarbTomlFromPath. leaves_cache_all. Qed.

Lemma leaves_cache_loadScarbMainArtifact scarbArtifactDirPath packageName :
  leaves_cache (loadScarbMainArtifact scarbArtifactDirPath packageName).
Proof. unfold loadScarbMainArtifact, existsSync. leaves_cache_all. Qed.

Lemma leaves_cache_call_scarb_build packageConfigPath artifactDirPath :
  leaves_cache (call_scarb_build packageConfigPath artifactDirPath).
Proof. unfold call_scarb_build. leaves_cache_all. Qed.

Lemma leaves_cache_throw_if_failed what unit_name statusCode :
  leaves_cache (throw_if_failed what unit_name statusCode).
Proof. unfold throw_if_failed. leaves_cache_all. Qed.

#[local] Hint Resolve leaves_cache_get_name leaves_cache_get_artifact leaves_cache_copyAbi
  leaves_cache_loadScarbTomlFromPath leaves_cache_loadScarbMainArtifact
  leaves_cache_call_scarb_build leaves_cache_throw_if_failed : leaves_cache.

Lemma leaves_cache_copyContractArtifacts artifactDirPath scarbArtifactDirPath entry :
  leaves_cache (copyContractArtifacts artifactDirPath scarbArtifactDirPath entry).
Proof. unfold copyContractArtifacts, mkdirSync_recursive. leaves_cache_all. Qed.

#[local] Hint Resolve leaves_cache_copyContractArtifacts : leaves_cache.

Lemma leaves_cache_copyAllContractArtifacts artifactDirPath scarbArtifactDirPath report :
  leaves_cache (copyAllContractArtifacts artifactDirPath scarbArtifactDirPath report).
Proof. unfold copyAllContractArtifacts. leaves_cache_all. Qed.

Lemma leaves_cache_findPackageConfigPaths traversablePaths root configFileName :
  leaves_cache (findPackageConfigPaths traversablePaths root configFileName).
Proof. unfold findPackageConfigPaths. leaves_cache_all. Qed.

#[local] Hint Resolve leaves_cache_copyAllContractArtifacts
  leaves_cache_findPackageConfigPaths : leaves_cache.

Lemma leaves_cache_buildPackage args config packageConfigPath statusCode0 :
  leaves_cache (buildPackage args config packageConfigPath statusCode0).
Proof. unfold buildPackage, console_log. leaves_cache_all. Qed.

#[local] Hint Resolve leaves_cache_buildPackage : leaves_cache.

Lemma leaves_cache_starknetBuildAction args config :
  leaves_cache (starknetBuildAction args config).
Proof. unfold starknetBuildAction. leaves_cache_all. Qed.

(** *** Where the cache entry is written *)

(** C2, as the code has it. In the legacy pipeline the cache entry is
    written for every file, whatever the compiler reports. In the two-stage
    pipeline the entry of a file is written only if stage 1 reported
    success: when what stage 1 left at the output path loads (a JSON
    document other than [null], the ABI file being another file), the entry
    is written whatever stage 2 reports, and when it does not parse or is
    [null], ABI extraction throws and the cache is as it was. The
    manifest-based pipeline, for one manifest as for the whole batch, leaves
    the cache as it was and does not invoke [updateCache]. *)
Theorem cache_entry_written_after_stage1_or_always args config file statusCode0 w :
  cache (compileDeprecatedFile args config file statusCode0 w).2 =
    <[file := deprecated_entry args config file]> (cache w) ∧
  (statusCode (cairo1_stage1 args config file).1 ≠ 0 →
   cache (compileCairo1File args config file statusCode0 w).2 = cache w) ∧
  (statusCode (cairo1_stage1 args config file).1 = 0 →
   cairo1_loads args config file →
   cache (compileCairo1File args config file statusCode0 w).2 =
     <[file := cairo1_entry config file]> (cache w)) ∧
  (statusCode (cairo1_stage1 args config file).1 = 0 →
   cairo1_outputPath config file ≠ cairo1_abiOutput config file →
   JSON_parse (default "" (cairo1_stage1 args config file).2) = None ∨
   JSON_parse (default "" (cairo1_stage1 args config file).2) = Some JNull →
   (∃ e, (compileCairo1File args config file statusCode0 w).1 = Thrown e) ∧
   cache (compileCairo1File args config file statusCode0 w).2 = cache w) ∧
  (∀ packageConfigPath, leaves_cache (buildPackage args config packageConfigPath statusCode0)) ∧
  leaves_cache (starknetBuildAction args config).
Proof.
  split; [|split; [|split; [|split; [|split]]]].
  - destruct (compileDeprecatedFile_spec args config file statusCode0 w)
      as (w' & -> & _ & Hcache & _). exact Hcache.
  - intros Hfail.
    by destruct (compileCairo1File_failure args config file statusCode0 w Hfail)
      as (_ & _ & _ & Hcache & _).
  - intros Hok Hloads.
    destruct (compileCairo1File_success args config file statusCode0 w Hok Hloads)
      as (w' & -> & _ & Hcache & _). exact Hcache.
  - intros Hok Hpaths Hparse.
    destruct (compileCairo1File_unloadable args config file statusCode0 w Hok Hpaths Hparse)
      as (e & w' & -> & Hcache). split; [by exists e|exact Hcache].
  - intros packageConfigPath. apply leaves_cache_buildPackage.
  - apply leaves_cache_starknetBuildAction.
Qed.

(** ** Batches *)






(** * Further properties of the actions *)

(** ** Files and processes *)

(** X1. Where the path is not that of a directory and the directory it is
    in is there, [initializeFile] leaves an empty file at the path, whatever
    file was or was not there; no other file and nothing else in the world
    changes, and doing it again changes nothing more. *)
Theorem initializeFile_leaves_an_empty_file filePath w :
  filePath ∉ dirs w →
  path_dirname filePath ∈ dirs w →
  let r := initializeFile filePath w in
  r.1 = Returned tt ∧
  files r.2 !! filePath = Some "" ∧
  (∀ q, q ≠ filePath → files r.2 !! q = files w !! q) ∧
  dirs r.2 = dirs w ∧ cache r.2 = cache w ∧ trace r.2 = trace w ∧
  initializeFile filePath r.2 = (Returned tt, r.2).
Proof.
  intros _ _ r. subst r. rewrite !initializeFile_eq. cbn [fst snd].
  split; [done|]. split; [apply lookup_insert_eq|].
  split; [by intros q Hq; apply lookup_insert_ne|].
  do 3 (split; [done|]).
  unfold set_files; simpl. by rewrite insert_insert_eq.
Qed.

(** X2. Whatever the exit status of the process, [processExecuted] counts it
    as 0 or 1 (0 exactly when the status is 0), never throws, and changes
    nothing but the console. *)
Theorem processExecuted_counts_one_per_failure executed logStatus w :
  ∃ n,
    (processExecuted executed logStatus w).1 = Returned n ∧
    (n = 0%nat ↔ statusCode executed = 0) ∧
    (n ≤ 1)%nat ∧
    let w' := (processExecuted executed logStatus w).2 in
    files w' = files w ∧ dirs w' = dirs w ∧ cache w' = cache w ∧ devnet w' = devnet w.
Proof.
  rewrite processExecuted_eq. exists (status_bit executed). cbn [fst snd].
  split; [done|]. unfold status_bit.
  destruct (Z.eqb_spec (statusCode executed) 0) as [Hz|Hz]; repeat split; try done; lia.
Qed.

(** X3. When a sources path does not exist, either compile action stops
    there with the error that names the path: none of its files is compiled,
    the cache is not flushed for it, the later paths are skipped and the
    failures counted so far are not reported. *)
Theorem missing_sources_path_aborts_compilation args config sourcesPath rest statusCode0 w :
  exists_in w (adaptPath (root config) sourcesPath) = false →
  let e := StarknetPluginError
             ("Source expected to be at " +:+ adaptPath (root config) sourcesPath +:+
              ", but not found.") in
  for_of (sourcesPath :: rest) (compileCairo1Sources args config) statusCode0 w = (Thrown e, w) ∧
  for_of (sourcesPath :: rest) (compileDeprecatedSources args config) statusCode0 w =
    (Thrown e, w).
Proof.
  intros Hmissing e.
  assert (Hcheck : checkSourceExists (adaptPath (root config) sourcesPath) w = (Thrown e, w)).
  { unfold checkSourceExists, existsSync. task_unfold. by rewrite Hmissing. }
  split; simpl.
  - unfold compileCairo1Sources.
    erewrite bind_thrown; [reflexivity|]. by erewrite bind_thrown.
  - unfold compileDeprecatedSources.
    erewrite bind_thrown; [reflexivity|]. by erewrite bind_thrown.
Qed.

(** ** Manifests *)





(** X5. Whatever error loading a manifest throws (the file is not there, it
    does not parse, it has no target table, it is turned down), the build
    action logs the error, counts one failure, does not invoke Scarb for
    that manifest and goes on with the remaining manifests. *)
Theorem manifest_load_error_is_one_batch_failure
    args config packageConfigPath rest e statusCode0 w :
  (loadScarbTomlFromPath packageConfigPath (negb (skipValidate args)) w).1 = Thrown e →
  for_of (packageConfigPath :: rest) (buildPackage args config) statusCode0 w =
  for_of rest (buildPackage args config) (S statusCode0) (record [ConsoleErrorObject e] w).
Proof.
  intros Hload.
  assert (Hload' : loadScarbTomlFromPath packageConfigPath (negb (skipValidate args)) w
                   = (Thrown e, w)).
  { pose proof (loadScarbTomlFromPath_pure packageConfigPath (negb (skipValidate args)) w).
    destruct (loadScarbTomlFromPath _ _ w); simpl in *. congruence. }
  simpl. unfold buildPackage.
  unfold bind at 1. unfold bind at 1. unfold try_catch, bind at 1.
  rewrite Hload'. task_unfold. by rewrite Nat.add_1_r.
Qed.

(** The ways in which loading a manifest throws before it validates. *)
Lemma manifest_load_errors tomlPath w :
  (files w !! tomlPath = None →
   (loadScarbTomlFromPath tomlPath true w).1 = Thrown (ENOENT tomlPath)) ∧
  (∀ content, files w !! tomlPath = Some content → toml_parse content = None →
   (loadScarbTomlFromPath tomlPath true w).1 = Thrown (SyntaxError content)) ∧
  (∀ content cfg, files w !! tomlPath = Some content → toml_parse content = Some cfg →
   target cfg = None →
   (loadScarbTomlFromPath tomlPath true w).1 =
   Thrown (TypeError "Cannot read properties of undefined (reading 'starknet-contract')")).
Proof.
  unfold loadScarbTomlFromPath, readFileSync. task_unfold. repeat split.
  - by intros ->.
  - by intros content -> ->.
  - by intros content cfg -> -> ->.
Qed.

(** X6. When Scarb fails for a manifest, the failure is counted once, the
    build report is not looked for, no artifact is copied, and the loop goes
    on with the remaining manifests. *)
Theorem scarb_failure_is_one_batch_failure
    args config packageConfigPath rest cfg statusCode0 w :
  let artifactDirPath := build_artifactDirPath config packageConfigPath in
  let build := scarb_build packageConfigPath artifactDirPath in
  (loadScarbTomlFromPath packageConfigPath (negb (skipValidate args)) w).1 = Returned cfg →
  statusCode build.1 ≠ 0 →
  for_of (packageConfigPath :: rest) (buildPackage args config) statusCode0 w =
  for_of rest (buildPackage args config) (S statusCode0)
    (record
       (ConsoleLog ("Building package " +:+ package_name cfg +:+ " from " +:+
                    path_dirname packageConfigPath)
        :: ScarbBuildCall packageConfigPath artifactDirPath
        :: process_events build.1 true)
       (set_files (λ fs, build.2 ∪ fs) w)).
Proof.
  intros artifactDirPath build Hload Hstatus.
  assert (Hload' : loadScarbTomlFromPath packageConfigPath (negb (skipValidate args)) w
                   = (Returned cfg, w)).
  { pose proof (loadScarbTomlFromPath_pure packageConfigPath (negb (skipValidate args)) w).
    destruct (loadScarbTomlFromPath _ _ w); simpl in *. congruence. }
  simpl. unfold buildPackage.
  unfold bind at 1. unfold bind at 1. unfold try_catch, bind at 1.
  rewrite Hload'. unfold ret at 1.
  unfold call_scarb_build. task_unfold. rewrite processExecuted_eq.
  fold artifactDirPath. fold build.
  apply Z.eqb_neq in Hstatus. unfold status_bit. rewrite Hstatus. cbn [negb].
  rewrite Nat.add_1_r. f_equal.
  unfold record, set_files; simpl. by rewrite <- !app_assoc.
Qed.

(** ** Contract entries of a build report *)

Lemma get_name_eq key entry name w :
  property key entry = Some (JStr name) → get_name key entry w = (Returned name, w).
Proof.
  intros Hp. unfold get_name.
  erewrite bind_returned by (apply get_property_eq; by destruct entry).
  by rewrite Hp.
Qed.

Lemma get_artifact_absent key artifacts w :
  artifacts ≠ JNull → property key artifacts = None →
  get_artifact key (Some artifacts) w = (Returned None, w).
Proof.
  intros Hnull Hp. unfold get_artifact, get_property_opt.
  erewrite bind_returned by (by apply get_property_eq). by rewrite Hp.
Qed.

Lemma get_artifact_path key artifacts rel w :
  property key artifacts = Some (JStr rel) → rel ≠ "" →
  get_artifact key (Some artifacts) w = (Returned (Some rel), w).
Proof.
  intros Hp Hrel. unfold get_artifact, get_property_opt.
  erewrite bind_returned by (apply get_property_eq; by destruct artifacts).
  rewrite Hp. apply String.eqb_neq in Hrel. by rewrite Hrel.
Qed.

(** X7. A contract entry whose [artifacts] name neither a sierra nor a casm
    file is skipped without an error: its artifact directory is created and
    no file is written. *)
Theorem contract_without_artifacts_is_skipped
    artifactDirPath scarbArtifactDirPath contractEntry package contract artifacts w :
  property "package_name" contractEntry = Some (JStr package) →
  property "contract_name" contractEntry = Some (JStr contract) →
  property "artifacts" contractEntry = Some artifacts →
  artifacts ≠ JNull →
  property "sierra" artifacts = None →
  property "casm" artifacts = None →
  copyContractArtifacts artifactDirPath scarbArtifactDirPath contractEntry w =
  (Returned tt,
   set_dirs
     (λ d, {[path_join artifactDirPath ((package +:+ "_" +:+ contract) +:+ ".cairo")]} ∪ d) w).
Proof.
  intros Hpackage Hcontract Hartifacts Hnull Hsierra Hcasm.
  unfold copyContractArtifacts.
  erewrite bind_returned by (by apply get_name_eq).
  erewrite bind_returned by (by apply get_name_eq).
  run.
  erewrite bind_returned by (apply get_property_eq; by destruct contractEntry).
  rewrite Hartifacts.
  erewrite bind_returned by (by apply get_artifact_absent).
  run.
  erewrite bind_returned by (by apply get_artifact_absent).
  reflexivity.
Qed.

(** X8. For a contract entry that names a sierra and a casm file which Scarb
    wrote, the sierra file is copied under the name package_contract with
    the sierra suffix, the ABI file beside it holds the ABI section of the
    sierra file, and the casm file is copied with the assembly suffix. *)
Theorem contract_artifacts_are_copied
    artifactDirPath scarbArtifactDirPath contractEntry package contract artifacts
    sierra casm sierraContent outputJson casmContent w :
  let fileName := package +:+ "_" +:+ contract in
  let ourArtifactDirPath := path_join artifactDirPath (fileName +:+ ".cairo") in
  let scarbSierraPath := path_join scarbArtifactDirPath sierra in
  let scarbCasmPath := path_join scarbArtifactDirPath casm in
  let ourSierraPath := path_join ourArtifactDirPath (fileName +:+ CAIRO1_SIERRA_SUFFIX) in
  let abiOutput := path_join ourArtifactDirPath (fileName +:+ ABI_SUFFIX) in
  let ourCasmPath := path_join ourArtifactDirPath (fileName +:+ CAIRO1_ASSEMBLY_SUFFIX) in
  property "package_name" contractEntry = Some (JStr package) →
  property "contract_name" contractEntry = Some (JStr contract) →
  property "artifacts" contractEntry = Some artifacts →
  property "sierra" artifacts = Some (JStr sierra) → sierra ≠ "" →
  property "casm" artifacts = Some (JStr casm) → casm ≠ "" →
  files w !! scarbSierraPath = Some sierraContent →
  JSON_parse sierraContent = Some outputJson → outputJson ≠ JNull →
  files w !! scarbCasmPath = Some casmContent →
  scarbSierraPath ≠ abiOutput →
  scarbCasmPath ≠ ourSierraPath → scarbCasmPath ≠ abiOutput →
  copyContractArtifacts artifactDirPath scarbArtifactDirPath contractEntry w =
  (Returned tt,
   set_files (insert ourCasmPath casmContent)
     (set_files (insert abiOutput (stringify_operand (property "abi" outputJson) +:+ nl))
        (set_files (insert abiOutput "")
           (set_files (insert ourSierraPath sierraContent)
              (set_dirs (λ d, {[ourArtifactDirPath]} ∪ d) w))))).
Proof.
  intros fileName ourArtifactDirPath scarbSierraPath scarbCasmPath ourSierraPath
    abiOutput ourCasmPath.
  intros Hpackage Hcontract Hartifacts Hsierra Hsierra' Hcasm Hcasm'
    Hfile Hparse Hnull Hcasmfile Hne1 Hne2 Hne3.
  subst fileName ourArtifactDirPath scarbSierraPath scarbCasmPath ourSierraPath
    abiOutput ourCasmPath.
  unfold copyContractArtifacts.
  erewrite bind_returned by (by apply get_name_eq).
  erewrite bind_returned by (by apply get_name_eq).
  run.
  erewrite bind_returned by (apply get_property_eq; by destruct contractEntry).
  rewrite Hartifacts.
  erewrite bind_returned by (by apply get_artifact_path).
  erewrite bind_returned; cycle 1.
  { erewrite bind_returned; cycle 1.
    { unfold copyFileSync, readFileSync. task_unfold. cbn [files set_dirs].
      rewrite Hfile. reflexivity. }
    eapply copyAbi_eq; [exact Hne1| |exact Hparse|exact Hnull].
    cbn [files set_files set_dirs].
    match goal with
    | |- <[?p:=_]> _ !! ?q = _ => destruct (decide (p = q)) as [->|Hne]
    end.
    - by rewrite lookup_insert_eq.
    - by rewrite lookup_insert_ne. }
  erewrite bind_returned by (by apply get_artifact_path).
  unfold copyFileSync, readFileSync. task_unfold. cbn [files set_files set_dirs].
  rewrite !lookup_insert_ne by done. by rewrite Hcasmfile.
Qed.

(** ** Finding the manifests *)

Lemma findPackageConfigPaths_loop traversablePaths root configFileName acc w :
  (∀ p, p ∈ traversablePaths → exists_in w (adaptPath root p) = true) →
  for_of traversablePaths
    (λ traversablePath packageConfigPaths,
       let traversablePath := adaptPath root traversablePath in
       checkSourceExists traversablePath;;
       let traversionResult := traverseFiles traversablePath configFileName in
       ret (List.app packageConfigPaths
              (List.filter (λ p, String.eqb (path_basename p) configFileName)
                 traversionResult)))
    acc w =
  (Returned (acc ++ found_configs traversablePaths root configFileName), w).
Proof.
  revert acc. induction traversablePaths as [|p l IH]; intros acc Hex.
  - simpl. unfold ret, found_configs. simpl. by rewrite app_nil_r.
  - simpl. erewrite bind_returned; cycle 1.
    { erewrite bind_returned; [reflexivity|].
      apply checkSourceExists_eq, Hex. left. }
    rewrite IH by (intros q Hq; apply Hex; by right).
    unfold found_configs. simpl. by rewrite app_assoc.
Qed.

(** X9. When the traversable paths exist, [findPackageConfigPaths] gives the
    files that the traversal finds and that are named as the manifest, in
    the order of the paths, and throws when there is none; it never gives an
    empty list, and it changes nothing. *)
Theorem findPackageConfigPaths_finds_or_throws traversablePaths root configFileName w :
  (∀ p, p ∈ traversablePaths → exists_in w (adaptPath root p) = true) →
  let found := found_configs traversablePaths root configFileName in
  findPackageConfigPaths traversablePaths root configFileName w =
  (match found with
   | [] => Thrown (StarknetPluginError
                     ("No projects to build. Could not find directories containing " +:+
                      configFileName))
   | _ => Returned found
   end, w) ∧
  Forall (λ p, path_basename p = configFileName) found.
Proof.
  intros Hex found. split.
  - unfold findPackageConfigPaths.
    erewrite bind_returned by (by apply findPackageConfigPaths_loop).
    simpl. fold found. by destruct found.
  - subst found. unfold found_configs.
    apply Forall_forall. intros p Hp.
    apply list_elem_of_In, in_concat in Hp as (l & Hl & Hp).
    apply list_elem_of_In, list_elem_of_fmap in Hl as (q & -> & _).
    apply filter_In in Hp as [_ Hp]. by apply String.eqb_eq.
Qed.

(** ** ABI extraction that goes wrong *)

(** X10. When the sierra file has no ABI section, ABI extraction does not
    fail: the ABI file holds the text [undefined] and a newline. *)
Theorem abi_file_of_a_document_without_abi
    sierraPath abiOutput content outputJson w :
  sierraPath ≠ abiOutput →
  files w !! sierraPath = Some content →
  JSON_parse content = Some outputJson →
  outputJson ≠ JNull →
  property "abi" outputJson = None →
  let r := copyAbi sierraPath abiOutput w in
  r.1 = Returned tt ∧ files r.2 !! abiOutput = Some ("undefined" +:+ nl).
Proof.
  intros Hne Hfile Hparse Hnull Habi r. subst r.
  rewrite (copyAbi_eq _ _ _ _ _ Hne Hfile Hparse Hnull), Habi. simpl.
  split; [done|]. by rewrite lookup_insert_eq.
Qed.

(** X11. When the sierra file is not there, does not parse, or holds
    [null], ABI extraction throws after it has emptied the ABI file: the ABI
    file is left empty, and nothing else changes. *)
Theorem failed_abi_extraction_leaves_an_empty_file sierraPath abiOutput w :
  sierraPath ≠ abiOutput →
  (files w !! sierraPath = None ∨
   ∃ content, files w !! sierraPath = Some content ∧
              (JSON_parse content = None ∨ JSON_parse content = Some JNull)) →
  ∃ e, copyAbi sierraPath abiOutput w = (Thrown e, set_files (insert abiOutput "") w).
Proof.
  intros Hne Hcases. unfold copyAbi. step.
  unfold readFileSync, parse_json. task_unfold. cbn [files set_files].
  rewrite lookup_insert_ne by done.
  destruct Hcases as [-> | (content & -> & [Hparse|Hparse])]; rewrite ?Hparse; eauto.
Qed.

(** ** The Cairo path of the legacy compiler *)

Lemma split_colon_not_nil s : split_colon s ≠ [].
Proof.
  destruct s as [|c s]; simpl; [done|].
  destruct (Ascii.eqb c ":"); [done|]. by destruct (split_colon s).
Qed.

Lemma join_cons sep x y l : join sep (x :: y :: l) = x +:+ sep +:+ join sep (y :: l).
Proof. reflexivity. Qed.

Lemma join_split_colon s : join ":" (split_colon s) = s.
Proof.
  induction s as [|c s IH]; [done|]. simpl.
  destruct (Ascii.eqb_spec c ":") as [->|Hc].
  - pose proof (split_colon_not_nil s) as Hnil.
    destruct (split_colon s) as [|h t]; [done|].
    rewrite join_cons, IH. reflexivity.
  - pose proof (split_colon_not_nil s) as Hnil.
    destruct (split_colon s) as [|h t]; [done|].
    destruct t as [|h' t].
    + simpl in *. by rewrite IH.
    + rewrite join_cons in *.
      change (String c h +:+ ":" +:+ join ":" (h' :: t))
        with (String c (h +:+ ":" +:+ join ":" (h' :: t))).
      by rewrite IH.
Qed.

(** X12. Splitting [--cairo-path] at the colons and joining the parts again
    gives the text back, so when the sources path, the root and every part
    of [--cairo-path] are absolute and the configuration adds no paths, the
    compiler is given the sources path, the root and then the argument as it
    was written. *)
Theorem cli_cairo_path_reaches_the_compiler_unchanged args config cliPath :
  cairoPath args = Some cliPath → cliPath ≠ "" →
  cairoPaths config = None →
  path_isAbsolute (starknetSources config) = true →
  path_isAbsolute (root config) = true →
  Forall (λ p, path_isAbsolute p = true) (split_colon cliPath) →
  join ":" (split_colon cliPath) = cliPath ∧
  deprecated_cairoPath args config =
    starknetSources config +:+ ":" +:+ root config +:+ ":" +:+ cliPath.
Proof.
  intros Hcli Hne Hcfg Hsources Hroot Hparts.
  split; [apply join_split_colon|].
  unfold deprecated_cairoPath. rewrite Hcli, Hcfg. unfold truthy.
  apply String.eqb_neq in Hne. rewrite Hne. cbn [negb default]. rewrite app_nil_r.
  cbn [app fmap list_fmap map]. rewrite Hsources, Hroot. unfold id.
  assert (map (λ p, if path_isAbsolute p then p else adaptPath (root config) p)
            (split_colon cliPath) = split_colon cliPath) as ->.
  { induction Hparts as [|p l Hp _ IH]; [done|]. simpl. by rewrite Hp, IH. }
  pose proof (split_colon_not_nil cliPath) as Hnil.
  pose proof (join_split_colon cliPath) as Hjoin.
  destruct (split_colon cliPath) as [|h t]; [done|].
  by rewrite !join_cons, Hjoin.
Qed.

(** ** A devnet that does not start *)

(** X13. On the integrated devnet, when the devnet fails to start the error
    reaches the caller, the unit of work is never run and [stop()] is not
    called. *)
Theorem failed_devnet_start_skips_the_work args runSuper e w :
  isStarknetDevnet (network w) = true →
  devnet_start_failure = Some e →
  let r := runWithDevnet (call_runSuper runSuper args) w in
  r.1 = Thrown e ∧
  trace r.2 = trace w ++ [DevnetCreated; DevnetStartCall] ∧
  files r.2 = files w ∧
  devnet r.2 = Starting.
Proof.
  intros Hnet Hstart. unfold runWithDevnet, bind, inspect. rewrite Hnet. simpl.
  unfold devnet_start, createIntegratedDevnet, bind, emit, modify. simpl.
  rewrite Hstart. simpl. by rewrite <- app_assoc.
Qed.

(** ** The legacy action from start to end *)












(** ** The artifacts of one file *)

Lemma files_record evs w : files (record evs w) = files w.
Proof. reflexivity. Qed.

Lemma files_set_cache f w : files (set_cache f w) = files w.
Proof. reflexivity. Qed.

Lemma files_set_dirs f w : files (set_dirs f w) = files w.
Proof. reflexivity. Qed.

Lemma files_set_files f w : files (set_files f w) = f (files w).
Proof. reflexivity. Qed.

Lemma files_apply_output p content w :
  files (apply_output p content w) =
  match content with
  | Some c => <[p := c]> (files w)
  | None => files w
  end.
Proof. by destruct content. Qed.

Create Rewrite HintDb files.
#[local] Hint Rewrite files_record files_set_cache files_set_dirs files_set_files
  files_apply_output : files.

(** X16. After a file's turn in the legacy pipeline, its output file and
    its ABI file hold what the compiler wrote in this run, and are empty if
    it wrote nothing: what an earlier run left there is gone, also when the
    compilation fails. No other file changes. *)
Theorem legacy_artifacts_are_of_this_run args config file statusCode0 w :
  deprecated_outputPath config file ≠ deprecated_abiPath config file →
  let r := compileDeprecatedFile args config file statusCode0 w in
  let written := deprecatedCompile (deprecated_options args config file) in
  files r.2 !! deprecated_outputPath config file = Some (default "" written.1.2) ∧
  files r.2 !! deprecated_abiPath config file = Some (default "" written.2) ∧
  (∀ p, p ≠ deprecated_outputPath config file → p ≠ deprecated_abiPath config file →
        files r.2 !! p = files w !! p).
Proof.
  intros Hne r written. subst r. unfold compileDeprecatedFile.
  do 7 run. unfold ret. cbn [snd]. autorewrite with files.
  cbn [dc_abi dc_output deprecated_options]. fold written.
  destruct written as [[result out] abi]. cbn [fst snd].
  destruct out as [out|], abi as [abi|]; cbn [default];
    (split; [|split; [|intros p Hp1 Hp2]]);
    rewrite ?lookup_insert_eq, ?(lookup_insert_ne _ (deprecated_abiPath config file)),
      ?lookup_insert_eq, ?(lookup_insert_ne _ (deprecated_outputPath config file)),
      ?lookup_insert_eq by done; try done.
  all: by rewrite ?lookup_insert_ne by done.
Qed.

(** X17. After a file's turn in the two-stage pipeline its artifacts are of
    this run. When stage 1 fails the output file holds what the compiler
    wrote, or nothing. When stage 1 succeeds the output file holds the
    document the compiler wrote, the ABI file the ABI section of that
    document, and the assembly file what stage 2 wrote, or nothing when it
    wrote nothing. *)
Theorem two_stage_artifacts_are_of_this_run args config file statusCode0 w :
  let r := compileCairo1File args config file statusCode0 w in
  (statusCode (cairo1_stage1 args config file).1 ≠ 0 →
   files r.2 !! cairo1_outputPath config file =
     Some (default "" (cairo1_stage1 args config file).2)) ∧
  (statusCode (cairo1_stage1 args config file).1 = 0 →
   cairo1_loads args config file →
   cairo1_outputPath config file ≠ cairo1_casmOutput config file →
   cairo1_abiOutput config file ≠ cairo1_casmOutput config file →
   ∃ content outputJson,
     (cairo1_stage1 args config file).2 = Some content ∧
     JSON_parse content = Some outputJson ∧
     files r.2 !! cairo1_outputPath config file = Some content ∧
     files r.2 !! cairo1_abiOutput config file =
       Some (stringify_operand (property "abi" outputJson) +:+ nl) ∧
     files r.2 !! cairo1_casmOutput config file =
       Some (default "" (cairo1_stage2 args config file).2)).
Proof.
  intros r. subst r. split.
  - intros Hfail. unfold compileCairo1File. do 5 run.
    fold (cairo1_stage1 args config file).
    apply Z.eqb_neq in Hfail. rewrite Hfail. cbn [negb]. unfold ret. cbn [snd].
    autorewrite with files. cbn [c2s_output cairo1_sierra_options].
    destruct (cairo1_stage1 args config file).2; cbn [default];
      by rewrite ?lookup_insert_eq.
  - intros Hok Hloads Hne1 Hne2.
    destruct (Hloads Hok) as (Hpaths & content & outputJson & Hwritten & Hparse & Hnull).
    exists content, outputJson. split; [done|]. split; [done|].
    unfold compileCairo1File. do 5 run.
    fold (cairo1_stage1 args config file). rewrite Hok. cbn [Z.eqb negb].
    erewrite bind_returned; cycle 1.
    { eapply copyAbi_eq; [exact Hpaths| |exact Hparse|exact Hnull].
      rewrite Hwritten. simpl. by rewrite lookup_insert_eq. }
    do 4 run. unfold ret. cbn [snd]. autorewrite with files.
    cbn [c2s_output cairo1_sierra_options s2c_output cairo1_casm_options].
    fold (cairo1_stage1 args config file) (cairo1_stage2 args config file).
    rewrite Hwritten.
    destruct (cairo1_stage2 args config file).2; cbn [default].
    + split; [|split].
      * rewrite !(lookup_insert_ne _ (cairo1_casmOutput config file)) by done.
        rewrite !(lookup_insert_ne _ (cairo1_abiOutput config file)) by done.
        by rewrite lookup_insert_eq.
      * rewrite !(lookup_insert_ne _ (cairo1_casmOutput config file)) by done.
        by rewrite lookup_insert_eq.
      * by rewrite lookup_insert_eq.
    + split; [|split].
      * rewrite !(lookup_insert_ne _ (cairo1_casmOutput config file)) by done.
        rewrite !(lookup_insert_ne _ (cairo1_abiOutput config file)) by done.
        by rewrite lookup_insert_eq.
      * rewrite !(lookup_insert_ne _ (cairo1_casmOutput config file)) by done.
        by rewrite lookup_insert_eq.
      * by rewrite lookup_insert_eq.
Qed.

(** ** Migration and verification *)

Context `{Axios, VerificationConstants, Migrator}.

(** X18. The migration action throws when it is given no file, before it
    runs anything. Given files, it hands them over adapted to the root and
    returns normally whatever the exit status of the migration: the status is
    logged and is not turned into an error. *)
Theorem migration_needs_files_and_ignores_the_status args inplace config w :
  match paths args with
  | None | Some [] =>
      starknetMigrateAction args inplace config w =
      (Thrown (StarknetPluginError "Expected at least one file to migrate"), w)
  | Some given =>
      let result := migrateContract (adaptPath (root config) <$> given) inplace in
      starknetMigrateAction args inplace config w =
      (Returned tt,
       record (process_events result.1 true) (set_files (λ fs, result.2 ∪ fs) w))
  end.
Proof.
  unfold starknetMigrateAction. destruct (paths args) as [[|f given]|]; [done| |done].
  cbv zeta. run. by erewrite bind_returned by apply processExecuted_eq.
Qed.

Lemma readable_exists w p : is_Some (files w !! p) → exists_in w p = true.
Proof.
  intros Hp. unfold exists_in. apply orb_true_iff. left. by apply bool_decide_eq_true.
Qed.

Lemma appendContractFile_readable root sourcePrefix item index bodyFormData w :
  is_Some (files w !! verification_path root item) →
  appendContractFile root sourcePrefix item index bodyFormData w =
  (Returned (bodyFormData ++ [file_part root sourcePrefix w index item]), w).
Proof.
  intros [content Hcontent]. unfold appendContractFile, file_part.
  erewrite bind_returned with (a := verification_path root item) (w' := w); cycle 1.
  { unfold verification_path in *. destruct (path_isAbsolute item); [done|].
    cbn [negb]. unfold existsSync. task_unfold.
    by rewrite readable_exists by (by exists content). }
  unfold readFileSync. task_unfold. by rewrite Hcontent.
Qed.

Lemma appendContractFile_missing_relative root sourcePrefix item index bodyFormData w :
  path_isAbsolute item = false →
  exists_in w (adaptPath root item) = false →
  appendContractFile root sourcePrefix item index bodyFormData w =
  (Thrown (StarknetPluginError ("File " +:+ adaptPath root item +:+ " does not exist")), w).
Proof.
  intros Hrel Hmissing. unfold appendContractFile, existsSync. rewrite Hrel.
  cbn [negb]. task_unfold. by rewrite Hmissing.
Qed.

Lemma appendContractFile_missing_absolute root sourcePrefix item index bodyFormData w :
  path_isAbsolute item = true →
  files w !! item = None →
  appendContractFile root sourcePrefix item index bodyFormData w = (Thrown (ENOENT item), w).
Proof.
  intros Habs Hmissing. unfold appendContractFile, readFileSync. rewrite Habs.
  cbn [negb]. task_unfold. by rewrite Hmissing.
Qed.

Lemma forEach_from_parts root sourcePrefix paths index bodyFormData w :
  Forall (λ item, is_Some (files w !! verification_path root item)) paths →
  forEach_from index paths (appendContractFile root sourcePrefix) bodyFormData w =
  (Returned (bodyFormData ++
             imap (λ i, file_part root sourcePrefix w (index + i)) paths), w).
Proof.
  intros Hall. revert index bodyFormData.
  induction Hall as [|item paths Hitem _ IH]; intros index bodyFormData.
  - simpl. unfold ret. by rewrite app_nil_r.
  - simpl. rewrite (bind_returned _ _ _ _ _
                      (appendContractFile_readable _ _ _ _ _ _ Hitem)).
    rewrite IH, <- app_assoc. do 3 f_equal. simpl. rewrite Nat.add_0_r. f_equal.
    apply imap_ext. intros i x _. unfold compose. f_equal. lia.
Qed.

Lemma one_form_part_eq bodyFormData paths root sourcePrefix w :
  Forall (λ item, is_Some (files w !! verification_path root item)) paths →
  handleMultiPartContractVerification bodyFormData paths root sourcePrefix w =
  (Returned (bodyFormData ++ imap (file_part root sourcePrefix w) paths), w).
Proof.
  intros Hall. unfold handleMultiPartContractVerification.
  by rewrite forEach_from_parts.
Qed.

(** X19. When every contract file can be read, the form gets one part per
    path, in the order of the paths, named [file0], [file1], and so on, each
    with the content of the file and, as its file path, the path without the
    sources prefix; relative paths are adapted to the root first. Nothing in
    the world changes. *)
Theorem one_form_part_per_contract_file bodyFormData paths root sourcePrefix w :
  Forall (λ item, is_Some (files w !! verification_path root item)) paths →
  handleMultiPartContractVerification bodyFormData paths root sourcePrefix w =
  (Returned (bodyFormData ++ imap (file_part root sourcePrefix w) paths), w).
Proof.
  apply one_form_part_eq.
Qed.

(** X20. A relative contract path whose adapted path does not exist stops
    the form with the error that names the adapted path, after the parts of
    the paths before it and before any part of the paths after it; an
    absolute path is not checked, and when there is no such file the error is
    the one of reading it. *)
Theorem unreadable_contract_file_stops_the_form
    bodyFormData before item after root sourcePrefix w :
  Forall (λ p, is_Some (files w !! verification_path root p)) before →
  (path_isAbsolute item = false →
   exists_in w (adaptPath root item) = false →
   handleMultiPartContractVerification bodyFormData (before ++ item :: after) root
     sourcePrefix w =
   (Thrown (StarknetPluginError ("File " +:+ adaptPath root item +:+ " does not exist")), w)) ∧
  (path_isAbsolute item = true →
   files w !! item = None →
   handleMultiPartContractVerification bodyFormData (before ++ item :: after) root
     sourcePrefix w =
   (Thrown (ENOENT item), w)).
Proof.
  intros Hbefore. unfold handleMultiPartContractVerification.
  generalize 0%nat as index. revert bodyFormData.
  induction Hbefore as [|p before Hp _ IH]; intros bodyFormData index.
  - cbn [app forEach_from]. split; intros Habs Hmissing.
    + erewrite bind_thrown; [reflexivity|]. by apply appendContractFile_missing_relative.
    + erewrite bind_thrown; [reflexivity|]. by apply appendContractFile_missing_absolute.
  - cbn [app forEach_from].
    rewrite (bind_returned _ _ _ _ _ (appendContractFile_readable _ _ _ _ _ _ Hp)).
    apply IH.
Qed.




Lemma has_content_truthy c : has_content c = true → json_truthy (Some c) = true.
Proof. by destruct c as [ |b|z|s|items|fields]. Qed.

Lemma getVerificationNetwork_eq networkName config origin network w :
  let name := default "" (or_else networkName (Some ALPHA_TESTNET)) in
  networks config !! name = Some network →
  getVerificationNetwork networkName config origin w =
  if truthy (verificationUrl network) then (Returned (name, network), w)
  else (Thrown (StarknetPluginError
                  ("Network " +:+ name +:+ " does not support Voyager verification.")), w).
Proof.
  intros name Hnet. unfold getVerificationNetwork. fold name.
  erewrite bind_returned; cycle 1.
  { rewrite getNetwork_spec, Hnet. reflexivity. }
  by destruct (truthy (verificationUrl network)).
Qed.

Lemma checkVerified_eq voyagerUrl data w :
  axios_get voyagerUrl = Returned data →
  data ≠ JNull →
  checkVerified voyagerUrl w =
  (Returned (match property "contract" data with
             | Some c => json_truthy (Some c) && has_content c
             | None => false
             end), w).
Proof.
  intros Hget Hnull. unfold checkVerified. rewrite Hget.
  erewrite bind_returned by (by apply get_property_eq).
  destruct (property "contract" data) as [c|]; [|done].
  by destruct (json_truthy (Some c)).
Qed.

(** X23. The contract counts as already verified exactly when the response
    has a [contract] that is a non-empty text, list or object: then the
    action logs that and the Voyager link, and posts nothing. Without such a
    [contract] (absent, [null], empty, a number or a boolean) the action goes
    on to the verification. *)
Theorem verified_contract_is_not_posted_again args config network data w :
  let name := default "" (or_else (va_starknetNetwork args) (Some ALPHA_TESTNET)) in
  let voyagerUrl :=
    default "undefined" (verificationUrl network) +:+ va_address args +:+ "/code" in
  let verifiedUrl :=
    default "undefined" (verifiedUrl network) +:+ va_address args +:+ "#code" in
  networks config !! name = Some network →
  truthy (verificationUrl network) = true →
  axios_get voyagerUrl = Returned data →
  data ≠ JNull →
  starknetVoyagerAction args config w =
  match property "contract" data with
  | Some (JStr (String _ _)) | Some (JArr (_ :: _)) | Some (JObj (_ :: _)) =>
      (Returned tt,
       record [ConsoleLog ("Contract at address " +:+ va_address args +:+
                           " has already been verified");
               ConsoleLog ("Check it out on Voyager: " +:+ verifiedUrl)] w)
  | _ => handleContractVerification args voyagerUrl verifiedUrl config w
  end.
Proof.
  intros name voyagerUrl verifiedUrl Hnet Hurl Hget Hnull.
  unfold starknetVoyagerAction.
  erewrite bind_returned; cycle 1.
  { rewrite (getVerificationNetwork_eq _ _ _ network) by exact Hnet. by rewrite Hurl. }
  cbn [snd]. fold voyagerUrl verifiedUrl.
  erewrite bind_returned; cycle 1.
  { unfold try_catch. by rewrite (checkVerified_eq _ data). }
  destruct (property "contract" data) as [[ |[]|z|[|c s]|[|x items]|[|kv fields]]|];
    cbn [json_truthy has_content andb negb String.eqb List.length Nat.eqb];
    try reflexivity.
  - by destruct (negb (Z.eqb z 0)).
  - task_unfold. by rewrite record_record.
  - task_unfold. by rewrite record_record.
  - task_unfold. by rewrite record_record.
Qed.

(** X24. Whatever goes wrong while the action asks whether the contract is
    verified (the request is rejected, or the response is [null]), the
    action throws the same error, which does not carry the cause; nothing is
    posted and nothing is logged. *)
Theorem failed_check_hides_its_cause args config network w :
  let name := default "" (or_else (va_starknetNetwork args) (Some ALPHA_TESTNET)) in
  let voyagerUrl :=
    default "undefined" (verificationUrl network) +:+ va_address args +:+ "/code" in
  networks config !! name = Some network →
  truthy (verificationUrl network) = true →
  ((∃ e, axios_get voyagerUrl = Thrown e) ∨ axios_get voyagerUrl = Returned JNull) →
  starknetVoyagerAction args config w = (Thrown (StarknetPluginError check_failed_message), w).
Proof.
  intros name voyagerUrl Hnet Hurl Hget.
  unfold starknetVoyagerAction.
  erewrite bind_returned; cycle 1.
  { rewrite (getVerificationNetwork_eq _ _ _ network) by exact Hnet. by rewrite Hurl. }
  cbn [snd]. fold voyagerUrl.
  erewrite bind_thrown; [reflexivity|].
  unfold try_catch, checkVerified.
  destruct Hget as [[e ->]| ->]; reflexivity.
Qed.

(** X25. A network whose configuration has no verification URL is refused
    with the error that names it, before any request; and without
    [--starknet-network] the network that is looked up is Alpha testnet. *)
Theorem network_without_verification_is_refused args config network w :
  let name := default "" (or_else (va_starknetNetwork args) (Some ALPHA_TESTNET)) in
  networks config !! name = Some network →
  truthy (verificationUrl network) = false →
  (truthy (va_starknetNetwork args) = false → name = ALPHA_TESTNET) ∧
  starknetVoyagerAction args config w =
  (Thrown (StarknetPluginError
             ("Network " +:+ name +:+ " does not support Voyager verification.")), w).
Proof.
  intros name Hnet Hurl. split.
  - intros Hcli. subst name. unfold or_else. by rewrite Hcli.
  - unfold starknetVoyagerAction.
    erewrite bind_thrown; [reflexivity|].
    rewrite (getVerificationNetwork_eq _ _ _ network) by exact Hnet. by rewrite Hurl.
Qed.

End Laws.

(** * The properties on the small project *)

Section Checks.
#[local] Existing Instances
  Demo.libs Demo.constants Demo.utils Demo.wrapper Demo.scarb Demo.server.
Import Demo.

(** C1, as stated, fails: the unit of work throws on the integrated devnet,
    and [stop()] has not run when the error reaches the caller. *)
Lemma devnet_left_running_when_tests_throw :
  let r := starknetTestAction no_args config throwing_tests world in
  r.1 = Thrown (ForeignError "test script crashed") ∧
  devnet_events (trace r.2) = [DevnetCreated; DevnetStartCall] ∧
  stop_calls (trace r.2) ≠ 1%nat ∧
  devnet r.2 = Running.
Proof. vm_compute. repeat split; discriminate. Qed.

(** With tests that pass, [stop()] runs once and the devnet is idle. *)
Lemma devnet_stopped_after_returning_work_witness :
  let r := runWithDevnet (call_runSuper passing_tests no_args) devnet_world in
  r.1 = Returned tt ∧
  trace r.2 = [DevnetCreated; DevnetStartCall; RunSuperCall no_args; DevnetStopCall] ∧
  stop_calls (trace r.2) = 1%nat ∧
  devnet r.2 = Idle.
Proof.
  apply (devnet_stopped_after_returning_work no_args passing_tests devnet_world);
    reflexivity.
Defined.

(** C2, as stated, fails: the legacy compiler fails on [b.cairo], and the
    cache has an entry for it afterwards. *)
Lemma failed_legacy_compilation_is_cached :
  let r := starknetDeprecatedCompileAction no_args config world in
  statusCode (deprecated_result no_args config b_cairo) = 1 ∧
  cache world !! b_cairo = None ∧
  cache r.2 !! b_cairo = Some (deprecated_entry no_args config b_cairo).
Proof. by vm_compute. Qed.


(** C3, as stated, fails: Scarb succeeds for the first manifest and leaves
    no build report; the action throws, and neither of the two manifests
    that remain is processed. *)
Lemma missing_build_report_stops_the_other_manifests :
  let r := starknetBuildAction no_args config world in
  r.1 = Thrown (StarknetPluginError
                  ("Error in building hello, could not find " +:+
                   "/proj/starknet-artifacts/contracts/hello/dev/hello.starknet_artifacts.json")) ∧
  manifest_events (trace r.2) =
    [ScarbBuildCall hello_toml "/proj/starknet-artifacts/contracts/hello"].
Proof. by vm_compute. Qed.

(** The loop over the three manifests ends at the first one. *)
Lemma missing_build_report_witness :
  ∃ w1,
    for_of [hello_toml; world_toml; again_toml] (buildPackage no_args config) 0%nat world =
    (Thrown (StarknetPluginError
               ("Error in building hello, could not find " +:+
                "/proj/starknet-artifacts/contracts/hello/dev/hello.starknet_artifacts.json")),
     w1).
Proof.
  destruct (missing_build_report_aborts_the_batch no_args config hello_toml
              [world_toml; again_toml] good_manifest 0%nat world)
    as (w1 & Hrun & _).
  - by vm_compute.
  - reflexivity.
  - by vm_compute.
  - by vm_compute.
  - intros Hin. apply (bool_decide_pack _) in Hin. by vm_compute in Hin.
  - exists w1. exact Hrun.
Defined.



(** Stage 1 fails on [b.cairo]: nothing but its output file is touched. *)
Lemma stage1_failure_witness :
  let r := compileCairo1File no_args config b_cairo 0 world in
  r.1 = Returned 1%nat ∧
  trace r.2 =
    ConsoleLog ("Compiling " +:+ b_cairo)
    :: CairoToSierraCall (cairo1_sierra_options no_args config b_cairo)
    :: process_events (cairo1_stage1 no_args config b_cairo).1 true ∧
  (∀ p, p ≠ cairo1_outputPath config b_cairo → files r.2 !! p = files world !! p) ∧
  cache r.2 = cache world.
Proof.
  apply (stage1_failure_skips_abi_and_casm no_args config b_cairo 0%nat world).
  by vm_compute.
Defined.

(** The name given on the command line wins over the configured one. *)
Lemma network_resolution_witness :
  resolves_from (with_network "alphaGoerli") config world "alphaGoerli" "--starknet-network".
Proof.
  apply (network_resolution_precedence (with_network "alphaGoerli") config world).
  reflexivity.
Defined.

(** On alphaGoerli the tests run directly and the devnet is not involved. *)
Lemma supervisor_passthrough_witness :
  let w1 := ((setRuntimeNetwork no_args config_without_network;; handleCache) world).2 in
  starknetTestAction no_args config_without_network throwing_tests world =
    call_runSuper throwing_tests no_args w1 ∧
  starknetRunAction no_args config_without_network throwing_tests world =
    call_runSuper throwing_tests no_args w1 ∧
  devnet_events (trace (call_runSuper throwing_tests no_args w1).2) = [] ∧
  devnet (call_runSuper throwing_tests no_args w1).2 = Idle.
Proof.
  intros w1.
  destruct (supervisor_is_passthrough_off_devnet no_args config_without_network
              throwing_tests world w1) as (Htest & Hrun & _ & Hevents & Hdevnet).
  - by vm_compute.
  - reflexivity.
  - split; [exact Htest|]. split; [by apply Hrun|]. split; [exact Hevents|exact Hdevnet].
Defined.

(** C9, as stated, fails: the ABI file that the two-stage pipeline writes
    for [a.cairo] holds the ABI on one line, which no indentation gives. *)
Lemma abi_file_is_not_pretty_printed :
  let r := starknetCompileCairo1Action no_args config world in
  ∃ text,
    property "abi" sierra_json = Some abi_json ∧
    files r.2 !! cairo1_abiOutput config a_cairo = Some (text +:+ nl) ∧
    ¬ pretty_printed text abi_json.
Proof.
  exists (JSON_stringify abi_json). split; [reflexivity|]. split; [by vm_compute|].
  intros (indent & _ & Heq).
  apply (f_equal (String.get 1)) in Heq. by vm_compute in Heq.
Qed.

(** The ABI of [a.cairo] is written on one line, with the newline after it. *)
Lemma abi_written_witness :
  let w := set_files (insert (cairo1_outputPath config a_cairo) sierra_text) world in
  let r := copyAbi (cairo1_outputPath config a_cairo) (cairo1_abiOutput config a_cairo) w in
  files r.2 !! cairo1_abiOutput config a_cairo = Some (JSON_stringify abi_json +:+ nl) ∧
  contains_newline (JSON_stringify abi_json) = false.
Proof.
  intros w r.
  destruct (abi_written_on_one_line_with_newline
              (cairo1_outputPath config a_cairo) (cairo1_abiOutput config a_cairo)
              sierra_text sierra_json abi_json w) as (_ & Hfile & Hline & _).
  - by vm_compute.
  - by vm_compute.
  - by vm_compute.
  - reflexivity.
  - split; [exact Hfile|exact Hline].
Defined.

(** The run action with [--starknet-network alphaGoerli] throws at once. *)
Lemma run_action_rejects_network_flag_witness :
  starknetRunAction (with_network "alphaGoerli") config passing_tests world =
  (Thrown (StarknetPluginError run_flag_message), world).
Proof.
  apply (run_action_rejects_network_flag (with_network "alphaGoerli") config passing_tests world).
  reflexivity.
Defined.

End Checks.

(** * The further properties on the small project *)

Section MoreChecks.
#[local] Existing Instances
  Demo.libs Demo.constants Demo.utils Demo.wrapper Demo.scarb Demo.server
  DemoMore.testnet DemoMore.accepting_axios DemoMore.migrator.
Import Demo DemoMore.

(** Every path of a list that is written out is a file of the world. *)
Ltac readable :=
  repeat (apply Forall_cons; split; [eexists; vm_compute; reflexivity|]);
  by apply Forall_nil.

(** [a.cairo] is a file of the sources directory: it is left empty. *)
Lemma initializeFile_witness :
  files (initializeFile a_cairo world).2 !! a_cairo = Some "".
Proof.
  destruct (initializeFile_leaves_an_empty_file a_cairo world) as (_ & Hempty & _).
  - apply (bool_decide_unpack _). by vm_compute.
  - apply (bool_decide_unpack _). by vm_compute.
  - exact Hempty.
Defined.

(** Compiling under [/nowhere] stops at the check of the sources path. *)
Lemma missing_sources_path_witness :
  starknetCompileCairo1Action (with_paths ["/nowhere"]) config world =
  (Thrown (StarknetPluginError "Source expected to be at /nowhere, but not found."), world).
Proof.
  destruct (missing_sources_path_aborts_compilation (with_paths ["/nowhere"]) config
              "/nowhere" [] 0%nat world) as [Hrun _].
  - reflexivity.
  - unfold starknetCompileCairo1Action. cbn [paths with_paths default].
    by rewrite (bind_thrown _ _ _ _ _ Hrun).
Defined.


(** A manifest that is not there is one failure, and the loop goes on. *)
Lemma manifest_load_error_witness :
  for_of ["/proj/none/Scarb.toml"; again_toml] (buildPackage no_args config) 0%nat world =
  for_of [again_toml] (buildPackage no_args config) 1%nat
    (record [ConsoleErrorObject (ENOENT "/proj/none/Scarb.toml")] world).
Proof.
  apply (manifest_load_error_is_one_batch_failure no_args config "/proj/none/Scarb.toml"
           [again_toml] (ENOENT "/proj/none/Scarb.toml") 0%nat world).
  by vm_compute.
Defined.

(** The files of the batch, found under the sources path. *)
Lemma findPackageConfigPaths_witness :
  findPackageConfigPaths ["/proj/contracts"] "/proj" "Scarb.toml" world =
  (Returned [hello_toml; world_toml; again_toml], world).
Proof.
  destruct (findPackageConfigPaths_finds_or_throws ["/proj/contracts"] "/proj" "Scarb.toml"
              world) as [Hrun _].
  - intros p Hp. apply list_elem_of_In in Hp. vm_compute in Hp.
    by destruct Hp as [<-|[]].
  - exact Hrun.
Defined.

(** The build report has no ABI section: the ABI file says [undefined]. *)
Lemma abi_file_without_abi_witness :
  let w := set_files (insert "/tmp/report.json" report_text) world in
  let r := copyAbi "/tmp/report.json" "/tmp/report_abi.json" w in
  r.1 = Returned tt ∧ files r.2 !! "/tmp/report_abi.json" = Some ("undefined" +:+ nl).
Proof.
  intros w.
  apply (abi_file_of_a_document_without_abi "/tmp/report.json" "/tmp/report_abi.json"
           report_text report_json w); by vm_compute.
Defined.

(** [a.cairo] is not JSON: extraction throws and the ABI file is empty. *)
Lemma failed_abi_extraction_witness :
  ∃ e, copyAbi a_cairo "/tmp/a_abi.json" world =
       (Thrown e, set_files (insert "/tmp/a_abi.json" "") world).
Proof.
  apply (failed_abi_extraction_leaves_an_empty_file a_cairo "/tmp/a_abi.json" world).
  - by vm_compute.
  - right. exists "a". split; [by vm_compute|]. left. by vm_compute.
Defined.

(** [--cairo-path /lib/a:/lib/b] comes after the sources path and the root. *)
Lemma cli_cairo_path_witness :
  deprecated_cairoPath (with_cairo_path "/lib/a:/lib/b") config =
  "/proj/contracts:/proj:/lib/a:/lib/b".
Proof.
  apply (cli_cairo_path_reaches_the_compiler_unchanged (with_cairo_path "/lib/a:/lib/b")
           config "/lib/a:/lib/b"); try reflexivity.
  - discriminate.
  - apply Forall_forall. intros p Hp. apply list_elem_of_In in Hp. vm_compute in Hp.
    by destruct Hp as [<-|[<-|[]]].
Defined.



(** The artifacts of [a.cairo] in the legacy pipeline. *)
Lemma legacy_artifacts_witness :
  let r := compileDeprecatedFile no_args config a_cairo 0 world in
  files r.2 !! deprecated_outputPath config a_cairo = Some "program" ∧
  files r.2 !! deprecated_abiPath config a_cairo = Some "[]".
Proof.
  intros r.
  destruct (legacy_artifacts_are_of_this_run no_args config a_cairo 0%nat world)
    as (Hout & Habi & _).
  - by vm_compute.
  - split; [exact Hout|exact Habi].
Defined.

(** The artifacts of [a.cairo] in the two-stage pipeline. *)
Lemma two_stage_artifacts_witness :
  let r := compileCairo1File no_args config a_cairo 0 world in
  files r.2 !! cairo1_outputPath config a_cairo = Some sierra_text ∧
  files r.2 !! cairo1_abiOutput config a_cairo = Some (JSON_stringify abi_json +:+ nl) ∧
  files r.2 !! cairo1_casmOutput config a_cairo = Some "casm".
Proof.
  intros r.
  destruct (two_stage_artifacts_are_of_this_run no_args config a_cairo 0%nat world)
    as [_ Hok].
  destruct Hok as (content & outputJson & Hwritten & Hparse & Hout & Habi & Hcasm).
  - reflexivity.
  - intros _. split; [by vm_compute|].
    exists sierra_text, sierra_json. by vm_compute.
  - by vm_compute.
  - by vm_compute.
  - assert (Some content = Some sierra_text) as [= ->]
      by (rewrite <- Hwritten; vm_compute; reflexivity).
    assert (Some outputJson = Some sierra_json) as [= ->]
      by (rewrite <- Hparse; vm_compute; reflexivity).
    split; [exact Hout|]. split; [exact Habi|exact Hcasm].
Defined.

(** A contract entry with empty artifacts only gets its directory. *)
Lemma contract_without_artifacts_witness :
  copyContractArtifacts "/proj/starknet-artifacts/contracts/hello" scarb_dev bare_entry world =
  (Returned tt,
   set_dirs
     (λ d, {[path_join "/proj/starknet-artifacts/contracts/hello"
               (("hello" +:+ "_" +:+ "Bare") +:+ ".cairo")]} ∪ d) world).
Proof.
  exact (contract_without_artifacts_is_skipped "/proj/starknet-artifacts/contracts/hello"
           scarb_dev bare_entry "hello" "Bare" (JObj []) world
           eq_refl eq_refl eq_refl ltac:(discriminate) eq_refl eq_refl).
Defined.

(** The contract [Balance] of the package [hello] in the canonical layout. *)
Lemma contract_artifacts_witness :
  let r := copyContractArtifacts "/proj/starknet-artifacts/contracts/hello" scarb_dev
             balance_entry built_world in
  r.1 = Returned tt ∧
  files r.2 !! "/proj/starknet-artifacts/contracts/hello/hello_Balance.cairo/hello_Balance.json"
    = Some sierra_text ∧
  files r.2 !!
    "/proj/starknet-artifacts/contracts/hello/hello_Balance.cairo/hello_Balance_abi.json"
    = Some (JSON_stringify abi_json +:+ nl) ∧
  files r.2 !! "/proj/starknet-artifacts/contracts/hello/hello_Balance.cairo/hello_Balance.casm"
    = Some "casm".
Proof.
  intros r. subst r.
  rewrite (contract_artifacts_are_copied "/proj/starknet-artifacts/contracts/hello" scarb_dev
             balance_entry "hello" "Balance"
             (JObj [("sierra", JStr "hello_Balance.sierra.json");
                    ("casm", JStr "hello_Balance.casm.json")])
             "hello_Balance.sierra.json" "hello_Balance.casm.json"
             sierra_text sierra_json "casm" built_world); try (by vm_compute).
Defined.

(** The migration fails and the action returns all the same. *)
Lemma migration_witness :
  (starknetMigrateAction (with_paths [a_cairo]) true config world).1 = Returned tt ∧
  (starknetMigrateAction no_args true config world).1 =
    Thrown (StarknetPluginError "Expected at least one file to migrate").
Proof.
  pose proof (migration_needs_files_and_ignores_the_status (with_paths [a_cairo]) true config
                world) as Hgiven.
  pose proof (migration_needs_files_and_ignores_the_status no_args true config world)
    as Hnone.
  cbn [paths with_paths no_args] in Hgiven, Hnone. cbv zeta in Hgiven.
  by rewrite Hgiven, Hnone.
Defined.

(** Two contract files make the parts [file0] and [file1]. *)
Lemma one_form_part_witness :
  (handleMultiPartContractVerification [] [a_cairo; "/proj/contracts/c.cairo"] "/proj"
     "/proj/contracts/" world).1 =
  Returned
    [{| part_name := "file0"; part_value := "a"; part_filepath := Some "a.cairo";
        part_contentType := Some "application/octet-stream" |};
     {| part_name := "file1"; part_value := "c"; part_filepath := Some "c.cairo";
        part_contentType := Some "application/octet-stream" |}].
Proof.
  rewrite (one_form_part_per_contract_file [] [a_cairo; "/proj/contracts/c.cairo"] "/proj"
             "/proj/contracts/" world).
  - by vm_compute.
  - readable.
Defined.

(** A dependency that is not there stops the form after the main contract. *)
Lemma unreadable_contract_file_witness :
  handleMultiPartContractVerification [] [a_cairo; "missing.cairo"] "/proj"
    "/proj/contracts/" world =
  (Thrown (StarknetPluginError "File missing.cairo does not exist"), world).
Proof.
  destruct (unreadable_contract_file_stops_the_form [] [a_cairo] "missing.cairo" []
              "/proj" "/proj/contracts/" world) as [Hrel _].
  - readable.
  - apply Hrel; reflexivity.
Defined.



(** Alpha testnet of the small project has no verification URL. *)
Lemma network_without_verification_witness :
  starknetVoyagerAction verify_args config world =
  (Thrown (StarknetPluginError "Network alphaGoerli does not support Voyager verification."),
   world).
Proof.
  destruct (network_without_verification_is_refused verify_args config goerli world)
    as [_ Hrun]; [by vm_compute..|].
  exact Hrun.
Defined.

End MoreChecks.

Section ChecksVerified.
#[local] Existing Instances
  Demo.libs Demo.constants Demo.utils Demo.wrapper Demo.scarb Demo.server
  DemoMore.testnet DemoMore.verified_axios DemoMore.migrator.
Import Demo DemoMore.

(** Voyager knows the contract: the action logs that and posts nothing. *)
Lemma verified_contract_witness :
  starknetVoyagerAction verify_args verifiable_config world =
  (Returned tt,
   record [ConsoleLog "Contract at address 0x123 has already been verified";
           ConsoleLog ("Check it out on Voyager: " +:+
                       "https://goerli.voyager.online/contract/0x123#code")] world).
Proof.
  rewrite (verified_contract_is_not_posted_again verify_args verifiable_config voyager
             (JObj [("contract", JObj [("abi", JArr [])])]) world); by vm_compute.
Defined.

End ChecksVerified.

Section ChecksUnreachable.
#[local] Existing Instances
  Demo.libs Demo.constants Demo.utils Demo.wrapper DemoMore.failing_scarb
  DemoMore.failing_server DemoMore.testnet DemoMore.unreachable_axios DemoMore.migrator.
Import Demo DemoMore.

(** Voyager cannot be reached: the error does not say so. *)
Lemma failed_check_witness :
  starknetVoyagerAction verify_args verifiable_config world =
  (Thrown (StarknetPluginError check_failed_message), world).
Proof.
  apply (failed_check_hides_its_cause verify_args verifiable_config voyager world);
    try (by vm_compute).
  left. by eexists.
Defined.

(** Scarb fails for [hello]: one failure, and the loop goes on. *)
Lemma scarb_failure_witness :
  ∃ w1,
    for_of [hello_toml; again_toml] (buildPackage no_args config) 0%nat world =
    for_of [again_toml] (buildPackage no_args config) 1%nat w1.
Proof.
  eexists.
  apply (scarb_failure_is_one_batch_failure no_args config hello_toml [again_toml]
           good_manifest 0%nat world); by vm_compute.
Defined.

(** The devnet does not start: the tests are not run. *)
Lemma failed_devnet_start_witness :
  let r := runWithDevnet (call_runSuper passing_tests no_args) devnet_world in
  r.1 = Thrown (ForeignError "integrated-devnet did not start") ∧
  trace r.2 = [DevnetCreated; DevnetStartCall] ∧
  files r.2 = files devnet_world ∧
  devnet r.2 = Starting.
Proof.
  apply (failed_devnet_start_skips_the_work no_args passing_tests
           (ForeignError "integrated-devnet did not start") devnet_world); reflexivity.
Defined.

End ChecksUnreachable.

Section ChecksCareless.
#[local] Existing Instances
  Demo.libs Demo.constants Demo.utils DemoMore.careless_wrapper Demo.scarb Demo.server.
Import Demo DemoMore.

(** Stage 1 fails on [b.cairo]: no entry. It succeeds on [c.cairo], whose
    output loads: the entry is written. It reports success on [a.cairo] and
    leaves nothing to load: the file's turn ends in a throw, with no entry. *)
Lemma cache_entry_written_witness :
  cache (compileCairo1File no_args config b_cairo 0 world).2 = cache world ∧
  cache (compileCairo1File no_args config c_cairo 0 world).2 =
    <[c_cairo := cairo1_entry config c_cairo]> (cache world) ∧
  (∃ e, (compileCairo1File no_args config a_cairo 0 world).1 = Thrown e) ∧
  cache (compileCairo1File no_args config a_cairo 0 world).2 = cache world.
Proof.
  split; [|split].
  - destruct (cache_entry_written_after_stage1_or_always no_args config b_cairo 0%nat world)
      as (_ & Hfailed & _).
    apply Hfailed. by vm_compute.
  - destruct (cache_entry_written_after_stage1_or_always no_args config c_cairo 0%nat world)
      as (_ & _ & Hloaded & _).
    apply Hloaded; [reflexivity|].
    intros _. split; [by vm_compute|].
    exists sierra_text, sierra_json. by vm_compute.
  - destruct (cache_entry_written_after_stage1_or_always no_args config a_cairo 0%nat world)
      as (_ & _ & _ & Hunloadable & _).
    apply Hunloadable; [reflexivity|by vm_compute|left; by vm_compute].
Defined.

End ChecksCareless.

Section ChecksBare.
#[local] Existing Instances
  DemoMore.libs_with_bare Demo.constants Demo.utils Demo.wrapper Demo.scarb Demo.server.
Import Demo DemoMore.


End ChecksBare.
